(** * Sonde visibility and descent-rate utilities: model and properties

    A shallow embedding of [utils.py] ([position_info], [getDensity],
    [seaLevelDescentRate], [load_summary_file], [read_json_file] and the
    KML builders), of the filter loop of [step2.py] and of the call of
    [step4.py].

    Python floats are modelled by the real numbers of the Standard Library:
    every arithmetic operation is exact, there is no rounding, no overflow
    and zero carries no sign.  The exceptions Python raises on the way
    (an index out of range, a division by zero, a math domain error) are
    kept, in an error monad.

    Binary64 rounds, overflows and underflows, so a statement proved on
    the reals is kept only in a form that rounding cannot break: results
    are compared where the inputs are far enough apart, rates stay clear
    of the range where [math.pow] overflows or underflows, and a property
    of what a call returns is stated for the calls that return.  Where a
    statement fails on binary64 alone, the module [b64] evaluates the code
    in IEEE 754 arithmetic at the input that shows it.

    A file is modelled by what [json.loads] makes of its text: the list of
    its entries, each with the fields the code reads, or nothing when the
    text does not decode.  The KML tree is modelled up to the point where
    it is written out; the two float formats are parameters. *)

From Stdlib Require Import PrimFloat.
From Stdlib Require Import Reals Lra Psatz.
From stdpp Require Import gmap strings list sorting.
From Equations.Prop Require Import Equations Logic.

Set Warnings "-inexact-float".
Local Open Scope R_scope.

(** ** Exceptions *)

Inductive PyError : Type :=
| IndexError
| ValueError
| ZeroDivisionError.

Inductive result (A : Type) : Type :=
| OK (a : A)
| Raise (e : PyError).

Arguments OK {A} a.
Arguments Raise {A} e.

(** Sequencing: the first exception raised ends the computation. *)
#[global] Instance result_bind : MBind result := fun A B k m =>
  match m with
  | OK a => k a
  | Raise e => Raise e
  end.

(** ** The [math] module on reals *)

Module math.

Definition pi : R := PI.

(** [math.radians] and [math.degrees]. *)
Definition radians (x : R) : R := x * (PI / 180).
Definition degrees (x : R) : R := x * (180 / PI).

Definition fabs (x : R) : R := Rabs x.
Definition exp (x : R) : R := Rtrigo_def.exp x.

(** [math.sqrt] raises ValueError on a negative argument. *)
Definition sqrt (x : R) : result R :=
  if Rlt_dec x 0 then Raise ValueError else OK (R_sqrt.sqrt x).

(** [math.atan2 y x], the angle of the point [(x, y)], in [(-pi, pi]]. *)
Definition atan2 (y x : R) : R :=
  if Rlt_dec 0 x then atan (y / x)
  else if Rlt_dec x 0 then
    if Rle_dec 0 y then atan (y / x) + PI else atan (y / x) - PI
  else
    if Rlt_dec 0 y then PI / 2
    else if Rlt_dec y 0 then - (PI / 2)
    else 0.

(** [math.pow x y]: a positive base takes any exponent; a zero base
    raises on a negative exponent; a negative base raises unless the
    exponent is an integer.  On binary64 it also raises OverflowError when
    the result is out of range, and gives 0.0 when the result is too
    small; the reals have neither case ([b64.pow] keeps the first). *)
Definition pow (x y : R) : result R :=
  if Rlt_dec 0 x then OK (Rpower x y)
  else if Req_dec_T y (IZR (Int_part y)) then
    if Rlt_dec x 0 then OK (powerRZ x (Int_part y))
    else if Rlt_dec y 0 then Raise ValueError
    else if Rlt_dec 0 y then OK 0
    else OK 1
  else
    if Rlt_dec x 0 then Raise ValueError
    else if Rlt_dec y 0 then Raise ValueError
    else OK 0.

End math.

(** Python's [/] on floats. *)
Definition pydiv (x y : R) : result R :=
  if Req_dec_T y 0 then Raise ZeroDivisionError else OK (x / y).

(** ** [getDensity] *)

Section Atmosphere.

(* Constants *)
Definition airMolWeight : R := 28.9644.
Definition densitySL : R := 1.225.
Definition pressureSL : R := 101325.
Definition temperatureSL : R := 288.15.
Definition gamma : R := 1.4.
Definition gravity : R := 9.80665.
Definition RGas : R := 8.31432.
Definition R_ : R := 287.053.
Definition deltaTemperature : R := 0.0.

(* Lookup tables *)
Definition altitudes : list R :=
  [0; 11000; 20000; 32000; 47000; 51000; 71000; 84852].
Definition pressureRels : list R :=
  [1;
   2.23361105092158e-1;
   5.403295010784876e-2;
   8.566678359291667e-3;
   1.0945601337771144e-3;
   6.606353132858367e-4;
   3.904683373343926e-5;
   3.6850095235747942e-6].
Definition temperatures : list R :=
  [288.15; 216.65; 216.65; 228.65; 270.65; 270.65; 214.65; 186.946].
Definition tempGrads : list R :=
  [-6.5; 0; 1; 2.8; 0; -2.8; -2; 0].
Definition gMR : R := gravity * airMolWeight / RGas.

(** Indexing a Python list with a non-negative index. *)
Definition getitem (l : list R) (i : nat) : result R :=
  match l !! i with
  | Some x => OK x
  | None => Raise IndexError
  end.

(** The scan [while altitude > altitudes[i + 1]: i = i + 1].  Each turn
    either raises, stops, or moves [i] one step closer to the end of the
    table. *)
Equations? pick_region (altitude : R) (i : nat) : result nat
  by wf (length altitudes - i)%nat lt :=
  pick_region altitude i with inspect (altitudes !! (i + 1)%nat) := {
    | exist _ None _ => Raise IndexError
    | exist _ (Some a) Hget with Rgt_dec altitude a := {
        | left _ => pick_region altitude (i + 1)%nat
        | right _ => OK i } }.
Proof.
  apply lookup_lt_Some in Hget. simpl in Hget. lia.
Qed.

(** [getDensity] on the reals.  What binary64 changes: altitudes closer
    than rounding resolves can give equal densities, and far below sea
    level [math.pow] is out of range. *)
Definition getDensity (altitude : R) : result R :=
  (* Pick a region to work in *)
  i ← (if Rgt_dec altitude 0 then pick_region altitude 0%nat else OK 0%nat);
  (* Lookup based on region *)
  baseTemp ← getitem temperatures i;
  g ← getitem tempGrads i;
  let tempGrad := g / 1000.0 in
  pressureRelBase ← getitem pressureRels i;
  base ← getitem altitudes i;
  let deltaAltitude := altitude - base in
  let temperature := baseTemp + tempGrad * deltaAltitude in
  (* Calculate relative pressure *)
  pressureRel ←
    (if Rlt_dec (math.fabs tempGrad) 1e-10 then
       q ← pydiv (-1 * gMR * deltaAltitude / 1000.0) baseTemp;
       OK (pressureRelBase * math.exp q)
     else
       b ← pydiv baseTemp temperature;
       e ← pydiv gMR tempGrad;
       p ← math.pow b (e / 1000.0);
       OK (pressureRelBase * p));
  (* Add temperature offset *)
  let temperature := temperature + deltaTemperature in
  (* Finally, work out the density... *)
  speedOfSound ← math.sqrt (gamma * R_ * temperature);
  let pressure := pressureRel * pressureSL in
  q ← pydiv (densitySL * pressureRel * temperatureSL) temperature;
  OK q.

(** ** [seaLevelDescentRate] *)

(** [seaLevelDescentRate] on the reals.  On binary64
    [math.pow(descent_rate, 2)] raises OverflowError from a rate of about
    1.34e154 on, and is 0.0 for a rate below about 1e-162. *)
Definition seaLevelDescentRate (descent_rate altitude : R) : result R :=
  rho ← getDensity altitude;
  sq ← math.pow descent_rate 2;
  math.sqrt ((rho / 1.225) * sq).

End Atmosphere.

(** ** [position_info] *)

(** A [(lat, lon, alt)] tuple. *)
Definition Position : Type := (R * R * R)%type.

(** The dict [position_info] returns, one field per key. *)
Record PositionInfo : Type := {
  listener : Position;
  balloon : Position;
  listener_radians : Position;
  balloon_radians : Position;
  angle_at_centre : R;
  angle_at_centre_radians : R;
  bearing : R;
  bearing_radians : R;
  great_circle_distance : R;
  straight_distance : R;
  elevation : R;
  elevation_radians : R
}.

Definition radius : R := 6364963.0.

(** [position_info] on the reals.  What binary64 changes: the radicand of
    the cosine rule can round below zero, and [math.sqrt] then raises
    ValueError (observer and target at the same spot, or centimetres
    apart); a bearing just below zero plus [2 * pi] rounds to [2 * pi];
    and the two orders of a pair of points round differently. *)
Definition position_info (listener balloon : Position) : result PositionInfo :=
  let '(lat1, lon1, alt1) := listener in
  let '(lat2, lon2, alt2) := balloon in
  let lat1 := math.radians lat1 in
  let lat2 := math.radians lat2 in
  let lon1 := math.radians lon1 in
  let lon2 := math.radians lon2 in
  (* bearing, angle at the centre and great circle distance *)
  let d_lon := lon2 - lon1 in
  let sa := cos lat2 * sin d_lon in
  let sb := (cos lat1 * sin lat2) - (sin lat1 * cos lat2 * cos d_lon) in
  let bearing := math.atan2 sa sb in
  aa ← math.sqrt ((sa ^ 2) + (sb ^ 2));
  let ab := (sin lat1 * sin lat2) + (cos lat1 * cos lat2 * cos d_lon) in
  let angle_at_centre := math.atan2 aa ab in
  let great_circle_distance := angle_at_centre * radius in
  (* the triangle with sides (r + alt1), (r + alt2) *)
  let ta := radius + alt1 in
  let tb := radius + alt2 in
  let ea := (cos angle_at_centre * tb) - ta in
  let eb := sin angle_at_centre * tb in
  let elevation := math.atan2 ea eb in
  (* cosine rule for the unknown side *)
  distance ← math.sqrt ((ta ^ 2) + (tb ^ 2) - 2 * tb * ta * cos angle_at_centre);
  (* a bearing in range 0 <= b < 2pi *)
  let bearing := if Rlt_dec bearing 0 then bearing + 2 * math.pi else bearing in
  OK {| listener := listener;
        balloon := balloon;
        listener_radians := (lat1, lon1, alt1);
        balloon_radians := (lat2, lon2, alt2);
        angle_at_centre := math.degrees angle_at_centre;
        angle_at_centre_radians := angle_at_centre;
        bearing := math.degrees bearing;
        bearing_radians := bearing;
        great_circle_distance := great_circle_distance;
        straight_distance := distance;
        elevation := math.degrees elevation;
        elevation_radians := elevation |}.

(** ** [load_summary_file] and the filter loop of [step2.py] *)

(** One entry of a summary file; [entry_extra] stands for the fields the
    loop passes through untouched. *)
Record Entry : Type := {
  entry_serial : string;
  entry_datetime : string;
  entry_lat : R;
  entry_lon : R;
  entry_alt : R;
  entry_extra : string
}.

(** The command-line arguments the loop reads. *)
Record Args : Type := {
  args_lat : R;
  args_lon : R;
  args_alt : R;
  args_min_el : R;
  args_datetime : string;
  args_window : R
}.

(** A summary file, by what [json.loads] makes of its text: [None] when the
    text does not decode, which the [except] of [load_summary_file] turns
    into [None], and otherwise the decoded list of entries, each with the
    fields the loop reads.  A file that cannot be opened or read is outside
    this type: [open] and [read] stand before the [try], and their
    exception ends the run. *)
Definition SummaryFile : Type := option (list Entry).

(** Summary data only has 3 entries, launch, burst and landing. *)
Definition load_summary_file (f : SummaryFile) : option (list Entry) :=
  match f with
  | Some data => if Nat.eqb (length data) 3 then Some data else None
  | None => None
  end.

Section Step2.

(** [dateutil.parser.parse], as the instant in seconds it denotes. *)
Variable parse : string -> R.

Variable args : Args.

Definition observer : Position := (args_lat args, args_lon args, args_alt args).
Definition observer_time : R := parse (args_datetime args).

(** The body of the loop over the entries of one file. *)
Definition filter_entry (serials : gmap string Entry) (_entry : Entry)
  : result (gmap string Entry) :=
  let _sonde_pos := (entry_lat _entry, entry_lon _entry, entry_alt _entry) in
  _pos_info ← position_info observer _sonde_pos;
  if Rgt_dec (elevation _pos_info) (args_min_el args) then
    let _pos_time := parse (entry_datetime _entry) in
    let _time_diff := Rabs (observer_time - _pos_time) in
    if Rlt_dec _time_diff (args_window args) then
      OK (<[entry_serial _entry := _entry]> serials)
    else OK serials
  else OK serials.

(** [for _entry in _data: ...] *)
Fixpoint for_entries (serials : gmap string Entry) (_data : list Entry)
  : result (gmap string Entry) :=
  match _data with
  | [] => OK serials
  | _entry :: rest =>
      serials' ← filter_entry serials _entry;
      for_entries serials' rest
  end.

(** [for _file in _file_list: ...]; a file is skipped when
    [load_summary_file] gives [None] or an empty list. *)
Fixpoint for_files (serials : gmap string Entry) (_file_list : list SummaryFile)
  : result (gmap string Entry) :=
  match _file_list with
  | [] => OK serials
  | _file :: rest =>
      serials' ←
        match load_summary_file _file with
        | Some ((_ :: _) as _data) => for_entries serials _data
        | _ => OK serials
        end;
      for_files serials' rest
  end.

(** The match set the script ends with. *)
Definition step2_main (_file_list : list SummaryFile) : result (gmap string Entry) :=
  for_files ∅ _file_list.

(** The entries the loop body sees, in the order it sees them. *)
Definition entries_seen (_file_list : list SummaryFile) : list Entry :=
  concat (omap load_summary_file _file_list).

(** The visibility predicate of the loop body. *)
Definition visible (e : Entry) : Prop :=
  exists p,
    position_info observer (entry_lat e, entry_lon e, entry_alt e) = OK p
    /\ elevation p > args_min_el args
    /\ Rabs (observer_time - parse (entry_datetime e)) < args_window args.

End Step2.

(** ** A sample run of [step2.py] *)

(** The defaults of the argument parser. *)
Definition default_args : Args :=
  {| args_lat := 37.4300;
     args_lon := -89.6436;
     args_alt := 161;
     args_min_el := -5.0;
     args_datetime := "2024-04-08T19:00:15Z";
     args_window := 3600 * 4 |}.

(** The few timestamps of the sample, in seconds from the default
    observation time. *)
Definition sample_parse (s : string) : R :=
  if String.eqb s "2024-04-08T18:00:15Z" then -3600
  else if String.eqb s "2024-04-09T12:00:15Z" then 61200
  else 0.

(** One summary file: launch, burst and landing of one sonde, the first
    two straight above the default site, the last one the day after. *)
Definition sample_launch : Entry :=
  {| entry_serial := "S1234567";
     entry_datetime := "2024-04-08T18:00:15Z";
     entry_lat := 37.4300;
     entry_lon := -89.6436;
     entry_alt := 1000;
     entry_extra := "launch" |}.

Definition sample_burst : Entry :=
  {| entry_serial := "S1234567";
     entry_datetime := "2024-04-08T19:00:15Z";
     entry_lat := 37.4300;
     entry_lon := -89.6436;
     entry_alt := 1000;
     entry_extra := "burst" |}.

Definition sample_landing : Entry :=
  {| entry_serial := "S1234567";
     entry_datetime := "2024-04-09T12:00:15Z";
     entry_lat := 37.4300;
     entry_lon := -89.6436;
     entry_alt := 1000;
     entry_extra := "landing" |}.

Definition sample_files : list SummaryFile :=
  [Some [sample_launch; sample_burst; sample_landing]].

(** ** Reading a telemetry export and building the KML tree *)

(** The exceptions of this part: those of [PyError], and KeyError for a
    dict read with a key it does not hold. *)
Inductive Exception : Type :=
| Builtin (e : PyError)
| KeyError.

Inductive outcome (A : Type) : Type :=
| Return (a : A)
| Except (e : Exception).

Arguments Return {A} a.
Arguments Except {A} e.

#[global] Instance outcome_bind : MBind outcome := fun A B k m =>
  match m with
  | Return a => k a
  | Except e => Except e
  end.

(** [l[0]] and [l[-1]] *)
Definition first_item {A : Type} (l : list A) : outcome A :=
  match l with
  | [] => Except (Builtin IndexError)
  | x :: _ => Return x
  end.

Definition last_item {A : Type} (l : list A) : outcome A :=
  match last l with
  | None => Except (Builtin IndexError)
  | Some x => Return x
  end.

(** [d[k]] on a dict *)
Definition dict_getitem {A : Type} (d : gmap string A) (k : string) : outcome A :=
  match d !! k with
  | Some a => Return a
  | None => Except KeyError
  end.

(** [list(d.keys())] followed by [.sort()]: the keys in increasing order
    of their characters. *)
Definition sorted_keys {A : Type} (d : gmap string A) : list string :=
  merge_sort String.le (map_to_list d).*1.

(** The dict [read_json_file] returns. *)
Record FlightData : Type := {
  fd_serial : string;
  fd_last_time : string;
  fd_path : list Position
}.

(** [for _entry in data: _telem[_entry['datetime']] = _entry] *)
Definition telem_of (data : list Entry) : gmap string Entry :=
  foldl (fun _telem _entry => <[entry_datetime _entry := _entry]> _telem) ∅ data.

(** [for _entry in _telem_dates: _path.append([lat, lon, alt])] *)
Fixpoint path_of (_telem : gmap string Entry) (_telem_dates : list string)
  : outcome (list Position) :=
  match _telem_dates with
  | [] => Return []
  | _entry :: rest =>
      _a ← dict_getitem _telem _entry;
      _path ← path_of _telem rest;
      Return ((entry_lat _a, entry_lon _a, entry_alt _a) :: _path)
  end.

(** [read_json_file], from the text of the file on: [None] is a text that
    [json.loads] rejects (JSONDecodeError, a ValueError). *)
Definition read_json_file (file : option (list Entry)) : outcome FlightData :=
  data ← match file with
         | Some data => Return data
         | None => Except (Builtin ValueError)
         end;
  (* Read in everything into a dictionary, which de-dupes. *)
  let _telem := telem_of data in
  (* Get keys and sort, now we can pull out data in time order. *)
  let _telem_dates := sorted_keys _telem in
  k_first ← first_item _telem_dates;
  _first ← dict_getitem _telem k_first;
  k_last ← last_item _telem_dates;
  _last ← dict_getitem _telem k_last;
  _path ← path_of _telem _telem_dates;
  Return {| fd_serial := entry_serial _first;
            fd_last_time := entry_datetime _last;
            fd_path := _path |}.

(** An [xml.etree.ElementTree.Element]: tag, attributes, text, children. *)
#[warnings="-register-all"]
Inductive Element : Type :=
| mkElement (tag : string) (attrib : list (string * string))
            (text : option string) (children : list Element).

Definition children_of (e : Element) : list Element :=
  match e with mkElement _ _ _ c => c end.

Definition tag_of (e : Element) : string :=
  match e with mkElement t _ _ _ => t end.

(** An element that only holds text. *)
Definition text_element (tag text : string) : Element :=
  mkElement tag [] (Some text) [].

Section Kml.

(** The two float formats the code uses: [f"{x:.6f}"] and [str(x)]. *)
Variable format_6f : R -> string.
Variable str : R -> string.

Definition default_icon : string :=
  "https://maps.google.com/mapfiles/kml/shapes/placemark_circle.png".

(** [f"{lon:.6f},{lat:.6f},{alt:.6f}"] *)
Definition coordinate_text (lat lon alt : R) : string :=
  (format_6f lon ++ "," ++ format_6f lat ++ "," ++ format_6f alt)%string.

Definition coordinates_to_kml_placemark (lat lon alt : R)
  (name description : string) (absolute : bool) (icon : string) (scale : R)
  : Element :=
  let pm_name := text_element "name" name in
  let pm_desc := text_element "description" description in
  let icon_scale := text_element "scale" (str scale) in
  let href := text_element "href" icon in
  let pm_icon := mkElement "Icon" [] None [href] in
  let icon_style := mkElement "IconStyle" [] None [icon_scale; pm_icon] in
  let style := mkElement "Style" [] None [icon_style] in
  let altitude_mode :=
    if absolute then [text_element "altitudeMode" "absolute"] else [] in
  let coordinates := text_element "coordinates" (coordinate_text lat lon alt) in
  let point := mkElement "Point" [] None (altitude_mode ++ [coordinates]) in
  mkElement "Placemark" [] None [pm_name; pm_desc; style; point].

Definition path_to_kml_placemark (flight_path : list Position) (name : string)
  (track_color poly_color : string) (track_width : R) (absolute extrude : bool)
  : Element :=
  let pm_name := text_element "name" name in
  let color := text_element "color" track_color in
  let width := text_element "width" (str track_width) in
  let line_style := mkElement "LineStyle" [] None [color; width] in
  let poly_style :=
    if extrude then
      [mkElement "PolyStyle" [] None
         [text_element "color" poly_color;
          text_element "fill" "1";
          text_element "outline" "1"]]
    else [] in
  let style := mkElement "Style" [] None (line_style :: poly_style) in
  let mode :=
    if absolute then
      (if extrude then [text_element "extrude" "1"] else [])
      ++ [text_element "altitudeMode" "absolute"]
    else [text_element "tessellate" "1"] in
  let coordinates :=
    text_element "coordinates"
      (String.concat " "
         (map (fun '(lat, lon, alt) => coordinate_text lat lon alt) flight_path)) in
  let line_string := mkElement "LineString" [] None (mode ++ [coordinates]) in
  mkElement "Placemark" [] None [pm_name; style; line_string].

Definition _log_file_to_kml_folder (file : option (list Entry))
  (absolute extrude last_only : bool) : outcome Element :=
  (* Read file. *)
  _flight_data ← read_json_file file;
  let _flight_serial := fd_serial _flight_data in
  let _landing_time := fd_last_time _flight_data in
  _landing_pos ← last_item (fd_path _flight_data);
  let '(lat, lon, alt) := _landing_pos in
  let _name := text_element "name" _flight_serial in
  (* Generate the placemark & flight track. *)
  let placemark :=
    coordinates_to_kml_placemark lat lon alt _flight_serial _landing_time
      absolute default_icon 1.0 in
  let track :=
    if last_only then []
    else [path_to_kml_placemark (fd_path _flight_data) "Track"
            "ff03bafc" "8003bafc" 2.0 absolute extrude] in
  Return (mkElement "Folder" [] None (_name :: placemark :: track)).

(** The loop of [log_files_to_kml]: a folder per file, a file that raises
    is logged and left out. *)
Fixpoint kml_folders (file_list : list (option (list Entry)))
  (absolute extrude last_only : bool) : list Element :=
  match file_list with
  | [] => []
  | file :: rest =>
      match _log_file_to_kml_folder file absolute extrude last_only with
      | Return folder => folder :: kml_folders rest absolute extrude last_only
      | Except _ => kml_folders rest absolute extrude last_only
      end
  end.

(** [log_files_to_kml], up to the tree it hands to [tree.write]. *)
Definition log_files_to_kml (file_list : list (option (list Entry)))
  (absolute extrude last_only : bool) : Element :=
  let kml_doc :=
    mkElement "Document" [] None
      (kml_folders file_list absolute extrude last_only) in
  mkElement "kml" [("xmlns", "http://www.opengis.net/kml/2.2")] None [kml_doc].

(** [step4.py]: every track, absolute and extruded. *)
Definition step4_main (_file_list : list (option (list Entry))) : Element :=
  log_files_to_kml _file_list true true false.

End Kml.

(** The position an entry contributes to the path. *)
Definition entry_position (e : Entry) : Position :=
  (entry_lat e, entry_lon e, entry_alt e).

(** The entries that survive the de-duplication of [read_json_file], in
    the order of their dates. *)
Definition kept_entries (data : list Entry) : list Entry :=
  omap (fun k => telem_of data !! k) (sorted_keys (telem_of data)).


(** The data of the files [log_files_to_kml] can convert: the files that
    decode to a list with an entry in it, in the order of the file list. *)
Definition convertible_files (file_list : list (option (list Entry)))
  : list (list Entry) :=
  omap (fun file =>
          match file with
          | Some ((_ :: _) as data) => Some data
          | _ => None
          end) file_list.

(** A stand-in for the two float formats, for the sample runs. *)
Definition sample_format (x : R) : string := "0.0".

(** ** The same arithmetic on binary64 *)

(** Python computes on binary64 floats, where every operation rounds.  This
    module repeats [getDensity], [seaLevelDescentRate] and the last steps
    of the bearing of [position_info] on the kernel's binary64 floats:
    [+], [-], [*], [/], [sqrt] and the comparisons are those of IEEE 754,
    as in CPython.  Of [math.pow] and [math.exp] it keeps what does not
    depend on how the C library rounds: [pow(1, y)] is 1 for every [y] and
    [exp(0)] is 1 (C99, Annex F), and [pow(x, 2)] is out of range once
    [|x|] reaches [2^512], which CPython reports as OverflowError.  At any
    other argument the answer is left open. *)
Module b64.

Inductive error : Type :=
| IndexError
| ValueError
| ZeroDivisionError
| OverflowError.

Inductive answer (A : Type) : Type :=
| Returns (a : A)
| Raises (e : error)
| Open.

Arguments Returns {A} a.
Arguments Raises {A} e.
Arguments Open {A}.

#[global] Instance answer_bind : MBind answer := fun A B k m =>
  match m with
  | Returns a => k a
  | Raises e => Raises e
  | Open => Open
  end.

Definition pi : float := 0x1.921fb54442d18p+1%float.

(** [math.degrees x] is [x * (180 / pi)]. *)
Definition degrees (x : float) : float := (x * (180 / pi))%float.

Definition fabs (x : float) : float := PrimFloat.abs x.

Definition sqrt (x : float) : answer float :=
  if (x <? 0)%float then Raises ValueError else Returns (PrimFloat.sqrt x).

Definition exp (x : float) : answer float :=
  if (x =? 0)%float then Returns 1%float else Open.

Definition pow (x y : float) : answer float :=
  if (x =? 1)%float then Returns 1%float
  else if ((y =? 2) && (0x1p+512 <=? PrimFloat.abs x)
           && (PrimFloat.abs x <? infinity))%float
       then Raises OverflowError
  else Open.

(** Python's [/] on floats. *)
Definition pydiv (x y : float) : answer float :=
  if (y =? 0)%float then Raises ZeroDivisionError else Returns (x / y)%float.

(* Constants *)
Definition airMolWeight : float := 28.9644%float.
Definition densitySL : float := 1.225%float.
Definition pressureSL : float := 101325%float.
Definition temperatureSL : float := 288.15%float.
Definition gamma : float := 1.4%float.
Definition gravity : float := 9.80665%float.
Definition RGas : float := 8.31432%float.
Definition R_ : float := 287.053%float.
Definition deltaTemperature : float := 0.0%float.

(* Lookup tables *)
Definition altitudes : list float :=
  [0; 11000; 20000; 32000; 47000; 51000; 71000; 84852]%float.
Definition pressureRels : list float :=
  [1;
   2.23361105092158e-1;
   5.403295010784876e-2;
   8.566678359291667e-3;
   1.0945601337771144e-3;
   6.606353132858367e-4;
   3.904683373343926e-5;
   3.6850095235747942e-6]%float.
Definition temperatures : list float :=
  [288.15; 216.65; 216.65; 228.65; 270.65; 270.65; 214.65; 186.946]%float.
Definition tempGrads : list float :=
  [-6.5; 0; 1; 2.8; 0; -2.8; -2; 0]%float.
Definition gMR : float := (gravity * airMolWeight / RGas)%float.

Definition getitem (l : list float) (i : nat) : answer float :=
  match l !! i with
  | Some x => Returns x
  | None => Raises IndexError
  end.

(** The scan [while altitude > altitudes[i + 1]: i = i + 1], with [above]
    the entries of the table from index [i + 1] on. *)
Fixpoint pick_region (altitude : float) (above : list float) (i : nat)
  : answer nat :=
  match above with
  | [] => Raises IndexError
  | a :: above' =>
      if (a <? altitude)%float then pick_region altitude above' (S i)
      else Returns i
  end.

Definition getDensity (altitude : float) : answer float :=
  (* Pick a region to work in *)
  i ← (if (0 <? altitude)%float then pick_region altitude (tail altitudes) 0%nat
       else Returns 0%nat);
  (* Lookup based on region *)
  baseTemp ← getitem temperatures i;
  g ← getitem tempGrads i;
  let tempGrad := (g / 1000.0)%float in
  pressureRelBase ← getitem pressureRels i;
  base ← getitem altitudes i;
  let deltaAltitude := (altitude - base)%float in
  let temperature := (baseTemp + tempGrad * deltaAltitude)%float in
  (* Calculate relative pressure *)
  pressureRel ←
    (if (fabs tempGrad <? 1e-10)%float then
       q ← pydiv (-1 * gMR * deltaAltitude / 1000.0)%float baseTemp;
       e ← exp q;
       Returns (pressureRelBase * e)%float
     else
       b ← pydiv baseTemp temperature;
       e ← pydiv gMR tempGrad;
       p ← pow b (e / 1000.0)%float;
       Returns (pressureRelBase * p)%float);
  (* Add temperature offset *)
  let temperature := (temperature + deltaTemperature)%float in
  (* Finally, work out the density... *)
  speedOfSound ← sqrt (gamma * R_ * temperature)%float;
  let pressure := (pressureRel * pressureSL)%float in
  q ← pydiv (densitySL * pressureRel * temperatureSL)%float temperature;
  Returns q.

Definition seaLevelDescentRate (descent_rate altitude : float) : answer float :=
  rho ← getDensity altitude;
  sq ← pow descent_rate 2%float;
  sqrt ((rho / 1.225) * sq)%float.

(** The end of [position_info] for the bearing: [bearing] is what
    [atan2(sa, sb)] returned; a negative one gets [2 * pi] added, and the
    dict holds [degrees(bearing)]. *)
Definition bearing_field (bearing : float) : float :=
  let bearing := if (bearing <? 0)%float then (bearing + 2 * pi)%float
                 else bearing in
  degrees bearing.

End b64.

(** ** Auxiliary notions used in the statements *)

(** The band the scan picks, for every altitude the table covers. *)
Definition band_of (altitude : R) (i : nat) : Prop :=
  match altitudes !! i, altitudes !! (i + 1)%nat with
  | Some lo, Some hi => (i = 0%nat \/ lo < altitude) /\ altitude <= hi
  | _, _ => False
  end.

(** The relative pressure of a band, as [getDensity] computes it. *)
Definition pressure_rel (baseTemp tempGrad pressureRelBase deltaAltitude : R) : R :=
  if Rlt_dec (Rabs tempGrad) 1e-10 then
    pressureRelBase * exp (-1 * gMR * deltaAltitude / 1000.0 / baseTemp)
  else
    pressureRelBase *
    Rpower (baseTemp / (baseTemp + tempGrad * deltaAltitude)) (gMR / tempGrad / 1000.0).

(** The angle at the centre between two points given in radians, as
    [position_info] computes it. *)
Definition centre_angle (lat1 lon1 lat2 lon2 : R) : R :=
  let d_lon := lon2 - lon1 in
  let sa := cos lat2 * sin d_lon in
  let sb := (cos lat1 * sin lat2) - (sin lat1 * cos lat2 * cos d_lon) in
  let ab := (sin lat1 * sin lat2) + (cos lat1 * cos lat2 * cos d_lon) in
  math.atan2 (sqrt ((sa ^ 2) + (sb ^ 2))) ab.

(** The bearing in radians, before and after it is brought to
    [0 <= b < 2pi]. *)
Definition raw_bearing (lat1 lon1 lat2 lon2 : R) : R :=
  let d_lon := lon2 - lon1 in
  let sa := cos lat2 * sin d_lon in
  let sb := (cos lat1 * sin lat2) - (sin lat1 * cos lat2 * cos d_lon) in
  math.atan2 sa sb.

Definition norm_bearing (b : R) : R :=
  if Rlt_dec b 0 then b + 2 * math.pi else b.

(** * Properties *)

(** ** The error monad *)

Lemma bind_OK {A B : Type} (a : A) (k : A -> result B) : (OK a ≫= k) = k a.
Proof. reflexivity. Qed.

Lemma bind_Raise {A B : Type} (e : PyError) (k : A -> result B) :
  (Raise e ≫= k) = Raise e.
Proof. reflexivity. Qed.

(** ** [math] *)

Lemma sqrt_OK x : 0 <= x -> math.sqrt x = OK (sqrt x).
Proof.
  intros Hx. unfold math.sqrt. destruct (Rlt_dec x 0); [lra | reflexivity].
Qed.

Lemma pydiv_OK x y : y <> 0 -> pydiv x y = OK (x / y).
Proof.
  intros Hy. unfold pydiv. destruct (Req_dec_T y 0); [contradiction | reflexivity].
Qed.

Lemma pow_OK_pos x y : 0 < x -> math.pow x y = OK (Rpower x y).
Proof.
  intros Hx. unfold math.pow. destruct (Rlt_dec 0 x); [reflexivity | lra].
Qed.









Lemma atan2_0_0 : math.atan2 0 0 = 0.
Proof.
  unfold math.atan2.
  destruct (Rlt_dec 0 0); [lra|]. reflexivity.
Qed.

Lemma atan2_0_pos x : 0 < x -> math.atan2 0 x = 0.
Proof.
  intros Hx. unfold math.atan2.
  destruct (Rlt_dec 0 x); [|lra].
  unfold Rdiv. now rewrite Rmult_0_l, atan_0.
Qed.

Lemma atan2_pos_0 y : 0 < y -> math.atan2 y 0 = PI / 2.
Proof.
  intros Hy. unfold math.atan2.
  destruct (Rlt_dec 0 0); [lra|].
  destruct (Rlt_dec 0 y); [reflexivity | lra].
Qed.

Lemma atan2_neg_0 y : y < 0 -> math.atan2 y 0 = - (PI / 2).
Proof.
  intros Hy. unfold math.atan2.
  destruct (Rlt_dec 0 0); [lra|].
  destruct (Rlt_dec 0 y); [lra|].
  destruct (Rlt_dec y 0); [reflexivity | lra].
Qed.

(** ** The atmosphere model *)

(** One turn of the band scan. *)
Lemma pick_region_step altitude i :
  pick_region altitude i =
  match altitudes !! (i + 1)%nat with
  | None => Raise IndexError
  | Some a => if Rgt_dec altitude a then pick_region altitude (i + 1)%nat else OK i
  end.
Proof.
  funelim (pick_region altitude i).
  - now rewrite e.
  - now rewrite Hget, Heq.
  - now rewrite Hget, Heq.
Qed.

(** The scan stops at [i] once [altitude] is at most the next base. *)
Lemma pick_region_stop altitude i a :
  altitudes !! (i + 1)%nat = Some a -> altitude <= a ->
  pick_region altitude i = OK i.
Proof.
  intros Ha Hle. rewrite pick_region_step, Ha.
  destruct (Rgt_dec altitude a); [lra | reflexivity].
Qed.

(** The scan moves on while [altitude] is above the next base. *)
Lemma pick_region_next altitude i a :
  altitudes !! (i + 1)%nat = Some a -> a < altitude ->
  pick_region altitude i = pick_region altitude (i + 1)%nat.
Proof.
  intros Ha Hlt. rewrite pick_region_step, Ha.
  destruct (Rgt_dec altitude a); [reflexivity | lra].
Qed.

(** Above the last base the scan reads [altitudes[8]]. *)
Lemma pick_region_above_top altitude :
  84852 < altitude -> pick_region altitude 0 = Raise IndexError.
Proof.
  intros H.
  do 7 (erewrite pick_region_next; [| reflexivity | simpl; lra]).
  now rewrite pick_region_step.
Qed.

Lemma getDensity_above_top altitude :
  84852 < altitude -> getDensity altitude = Raise IndexError.
Proof.
  intros H. unfold getDensity.
  destruct (Rgt_dec altitude 0); [|lra].
  now rewrite pick_region_above_top.
Qed.

Lemma region_cases altitude :
  altitude <= 84852 ->
  exists i, (i < 7)%nat /\ band_of altitude i /\
    (if Rgt_dec altitude 0 then pick_region altitude 0%nat else OK 0%nat) = OK i.
Proof.
  intros Htop.
  destruct (Rgt_dec altitude 0) as [Hpos | Hneg].
  2:{ exists 0%nat. repeat split; [lia | now left | simpl; lra]. }
  destruct (Rle_dec altitude 11000).
  { exists 0%nat. repeat split; [lia | now left | simpl; lra |].
    now apply (pick_region_stop _ 0 11000). }
  rewrite (pick_region_next _ 0 11000) by (reflexivity || lra).
  destruct (Rle_dec altitude 20000).
  { exists 1%nat. repeat split; [lia | right; simpl; lra | simpl; lra |].
    now apply (pick_region_stop _ 1 20000). }
  rewrite (pick_region_next _ 1 20000) by (reflexivity || lra).
  destruct (Rle_dec altitude 32000).
  { exists 2%nat. repeat split; [lia | right; simpl; lra | simpl; lra |].
    now apply (pick_region_stop _ 2 32000). }
  rewrite (pick_region_next _ 2 32000) by (reflexivity || lra).
  destruct (Rle_dec altitude 47000).
  { exists 3%nat. repeat split; [lia | right; simpl; lra | simpl; lra |].
    now apply (pick_region_stop _ 3 47000). }
  rewrite (pick_region_next _ 3 47000) by (reflexivity || lra).
  destruct (Rle_dec altitude 51000).
  { exists 4%nat. repeat split; [lia | right; simpl; lra | simpl; lra |].
    now apply (pick_region_stop _ 4 51000). }
  rewrite (pick_region_next _ 4 51000) by (reflexivity || lra).
  destruct (Rle_dec altitude 71000).
  { exists 5%nat. repeat split; [lia | right; simpl; lra | simpl; lra |].
    now apply (pick_region_stop _ 5 71000). }
  rewrite (pick_region_next _ 5 71000) by (reflexivity || lra).
  exists 6%nat. repeat split; [lia | right; simpl; lra | simpl; lra |].
  now apply (pick_region_stop _ 6 84852).
Qed.

Lemma pressure_rel_pos baseTemp tempGrad pressureRelBase deltaAltitude :
  0 < pressureRelBase ->
  0 < pressure_rel baseTemp tempGrad pressureRelBase deltaAltitude.
Proof.
  intros Hp. unfold pressure_rel.
  destruct (Rlt_dec _ _); apply Rmult_lt_0_compat; try assumption.
  - apply exp_pos.
  - unfold Rpower. apply exp_pos.
Qed.

(** What [getDensity] returns once the band is known and the band's
    temperature is positive. *)
Lemma getDensity_in_band altitude i baseTemp g pressureRelBase base :
  (if Rgt_dec altitude 0 then pick_region altitude 0%nat else OK 0%nat) = OK i ->
  temperatures !! i = Some baseTemp ->
  tempGrads !! i = Some g ->
  pressureRels !! i = Some pressureRelBase ->
  altitudes !! i = Some base ->
  0 < baseTemp ->
  0 < baseTemp + g / 1000.0 * (altitude - base) ->
  getDensity altitude =
  OK (densitySL * pressure_rel baseTemp (g / 1000.0) pressureRelBase (altitude - base)
      * temperatureSL / (baseTemp + g / 1000.0 * (altitude - base) + deltaTemperature)).
Proof.
  intros Hi Ht Hg Hp Hb HbT HT.
  unfold getDensity, getitem. rewrite Hi. cbn [mbind result_bind].
  rewrite Ht, Hg, Hp, Hb. cbn [mbind result_bind].
  unfold pressure_rel, math.fabs, math.exp.
  set (T := baseTemp + g / 1000.0 * (altitude - base)) in *.
  assert (HT0 : 0 < T + deltaTemperature) by (unfold deltaTemperature; lra).
  destruct (Rlt_dec (Rabs (g / 1000.0)) 1e-10) as [Hiso | Hgrad].
  - rewrite pydiv_OK by lra. cbn [mbind result_bind].
    rewrite sqrt_OK by (unfold gamma, R_; lra). cbn [mbind result_bind].
    rewrite pydiv_OK by lra. reflexivity.
  - assert (g / 1000.0 <> 0).
    { intros Hz. apply Hgrad. rewrite Hz, Rabs_R0. lra. }
    rewrite (pydiv_OK gMR) by assumption.
    rewrite (pydiv_OK baseTemp) by lra. cbn [mbind result_bind].
    rewrite pow_OK_pos by (apply Rdiv_lt_0_compat; assumption).
    cbn [mbind result_bind].
    rewrite sqrt_OK by (unfold gamma, R_; lra). cbn [mbind result_bind].
    rewrite pydiv_OK by lra. reflexivity.
Qed.

(** Inside the table every band keeps its temperature positive, so
    [getDensity] returns, and what it returns is positive. *)
Lemma getDensity_total altitude :
  altitude <= 84852 ->
  exists rho, getDensity altitude = OK rho /\ 0 < rho.
Proof.
  intros Htop.
  destruct (region_cases altitude Htop) as (i & Hi & Hband & Hpick).
  assert (Hcases : exists baseTemp g p base,
             temperatures !! i = Some baseTemp /\ tempGrads !! i = Some g /\
             pressureRels !! i = Some p /\ altitudes !! i = Some base /\
             0 < baseTemp /\ 0 < p /\
             0 < baseTemp + g / 1000.0 * (altitude - base)).
  { unfold band_of in Hband.
    do 7 (destruct i as [|i];
      [simpl in Hband; destruct Hband as [[Hz | Hlo] Hhi]; try discriminate Hz;
       do 4 eexists; repeat (split; [reflexivity|]); repeat split; lra|]).
    lia. }
  destruct Hcases as (baseTemp & g & p & base & Ht & Hg & Hp & Hb & HbT & Hp0 & HT).
  eexists. split.
  - eapply getDensity_in_band; eassumption.
  - apply Rdiv_lt_0_compat; [|unfold deltaTemperature; lra].
    apply Rmult_lt_0_compat; [|unfold temperatureSL; lra].
    apply Rmult_lt_0_compat; [unfold densitySL; lra|].
    now apply pressure_rel_pos.
Qed.

(** C1 (the code at the failing input): one metre above the last base
    altitude the band scan indexes [altitudes[8]] and [getDensity] raises
    IndexError instead of returning a density. *)
Theorem getDensity_84853_raises : getDensity 84853 = Raise IndexError.
Proof. apply getDensity_above_top. lra. Qed.

(** *** The troposphere *)

Lemma Rpower_neg_decreasing x y c :
  0 < x -> x < y -> c < 0 -> Rpower y c < Rpower x c.
Proof.
  intros Hx Hxy Hc. unfold Rpower. apply exp_increasing.
  pose proof (ln_increasing x y Hx Hxy). nra.
Qed.

(** Up to 11000 m the scan stays in band 0. *)
Lemma getDensity_troposphere altitude :
  altitude <= 11000 ->
  getDensity altitude =
  OK (densitySL * pressure_rel 288.15 (-6.5 / 1000.0) 1 (altitude - 0)
      * temperatureSL / (288.15 + -6.5 / 1000.0 * (altitude - 0) + deltaTemperature)).
Proof.
  intros Hle.
  apply (getDensity_in_band altitude 0); try reflexivity; try lra.
  destruct (Rgt_dec altitude 0); [|reflexivity].
  now apply (pick_region_stop _ 0 11000).
Qed.

(** In band 0 the density is 1.225 times a negative power of
    [288.15 / temperature]. *)
Lemma troposphere_density altitude :
  altitude <= 11000 ->
  getDensity altitude =
  OK (1.225 * Rpower (288.15 / (288.15 - 0.0065 * altitude))
                (gMR / (-6.5 / 1000.0) / 1000.0 + 1)).
Proof.
  intros Hle. rewrite getDensity_troposphere by assumption. f_equal.
  unfold pressure_rel, densitySL, temperatureSL, deltaTemperature.
  destruct (Rlt_dec (Rabs (-6.5 / 1000.0)) 1e-10) as [Habs | _].
  { exfalso. rewrite Rabs_left in Habs by lra. lra. }
  replace (288.15 + -6.5 / 1000.0 * (altitude - 0)) with (288.15 - 0.0065 * altitude) by lra.
  set (T := 288.15 - 0.0065 * altitude).
  assert (HT : 0 < T) by (unfold T; lra).
  assert (Hx : 0 < 288.15 / T) by (apply Rdiv_lt_0_compat; lra).
  rewrite Rpower_plus, Rpower_1 by assumption.
  replace (T + 0.0) with T by lra. unfold Rdiv.
  generalize (Rpower (288.15 * / T) (gMR * / (-6.5 * / 1000.0) * / 1000.0)), (/ T).
  intros p q. lra.
Qed.

(** C8 (the claim fails): on binary64 an altitude of 1e-15 m is absorbed
    when the temperature of the band is computed, so [getDensity] gives
    1.225 at 0 and at 1e-15 alike, although [0 <= 0 < 1e-15 <= 11000]. *)
Lemma getDensity_b64_not_strict :
  (0 <? 1e-15)%float = true /\ (1e-15 <=? 11000)%float = true
  /\ b64.getDensity 0%float = b64.Returns 1.225%float
  /\ b64.getDensity 1e-15%float = b64.Returns 1.225%float.
Proof. repeat split; vm_compute; reflexivity. Qed.

(** C8 (as amended): on the troposphere band the density is strictly
    decreasing for altitudes at least a millimetre apart: for [0 <= a],
    [a + 0.001 <= b] and [b <= 11000], [getDensity a] and [getDensity b]
    both return, and the first is strictly greater. *)
Theorem getDensity_troposphere_decreasing a b :
  0 <= a -> a + 0.001 <= b -> b <= 11000 ->
  exists rho_a rho_b,
    getDensity a = OK rho_a /\ getDensity b = OK rho_b /\ rho_a > rho_b.
Proof.
  intros Ha Hab Hb.
  do 2 eexists. split; [|split].
  - apply troposphere_density. lra.
  - apply troposphere_density. lra.
  - apply Rmult_lt_compat_l; [lra|].
    apply Rpower_neg_decreasing.
    + apply Rdiv_lt_0_compat; lra.
    + unfold Rdiv. apply Rmult_lt_compat_l; [lra|].
      apply Rinv_lt_contravar; [|lra].
      apply Rmult_lt_0_compat; lra.
    + unfold gMR, gravity, airMolWeight, RGas. lra.
Qed.

Lemma getDensity_troposphere_decreasing_witness :
  exists rho_a rho_b,
    getDensity 0 = OK rho_a /\ getDensity 11000 = OK rho_b /\ rho_a > rho_b.
Proof.
  apply (getDensity_troposphere_decreasing 0 11000); lra.
Defined.

(** Sea-level density: [getDensity 0] is 1.225. *)
Lemma getDensity_0 : getDensity 0 = OK 1.225.
Proof.
  rewrite troposphere_density by lra. f_equal.
  replace (288.15 / (288.15 - 0.0065 * 0)) with 1 by (field; lra).
  unfold Rpower. rewrite ln_1, Rmult_0_r, exp_0. lra.
Qed.

(** *** The descent rate *)

(** [math.pow x 2] is the square of [x], whatever the sign of [x]. *)
Lemma pow_2 x : math.pow x 2 = OK (x * x).
Proof.
  unfold math.pow.
  assert (Hint : Int_part 2 = 2%Z).
  { symmetry. apply Int_part_spec. lra. }
  destruct (Rlt_dec 0 x) as [Hpos | Hnpos].
  - f_equal. replace 2 with (INR 2) by (simpl; lra).
    rewrite Rpower_pow by assumption. simpl. lra.
  - rewrite Hint.
    destruct (Req_dec_T 2 2) as [_ | Hne]; [|contradiction].
    destruct (Rlt_dec x 0) as [Hneg | Hnneg].
    + f_equal. simpl. lra.
    + destruct (Rlt_dec 2 0); [lra|].
      destruct (Rlt_dec 0 2); [|lra].
      f_equal. assert (x = 0) by lra. subst. lra.
Qed.

(** What [seaLevelDescentRate] returns wherever [getDensity] gives a
    positive density. *)
Lemma seaLevelDescentRate_abs descent_rate altitude rho :
  getDensity altitude = OK rho -> 0 < rho ->
  seaLevelDescentRate descent_rate altitude =
  OK (Rabs descent_rate * sqrt (rho / 1.225)).
Proof.
  intros Hrho Hpos. unfold seaLevelDescentRate.
  rewrite Hrho, pow_2. cbn [mbind result_bind].
  assert (Hq : 0 <= rho / 1.225) by (left; apply Rdiv_lt_0_compat; lra).
  rewrite sqrt_OK by (apply Rmult_le_pos; [assumption | nra]).
  f_equal. rewrite sqrt_mult_alt by assumption.
  fold (Rsqr descent_rate). rewrite sqrt_Rsqr_abs. lra.
Qed.






(** ** The look-angle solver *)

Lemma cosine_rule_nonneg ta tb c :
  -1 <= c <= 1 -> 0 <= (ta ^ 2) + (tb ^ 2) - 2 * tb * ta * c.
Proof.
  intros [Hlo Hhi].
  pose proof (pow2_ge_0 (ta - tb)). pose proof (pow2_ge_0 (ta + tb)).
  assert (0 <= (1 + c) * (ta - tb) ^ 2) by (apply Rmult_le_pos; lra).
  assert (0 <= (1 - c) * (ta + tb) ^ 2) by (apply Rmult_le_pos; lra).
  nra.
Qed.

Lemma squares_nonneg a b : 0 <= (a ^ 2) + (b ^ 2).
Proof. pose proof (pow2_ge_0 a). pose proof (pow2_ge_0 b). lra. Qed.

(** What [position_info] returns on the reals, where neither radicand can
    be negative: it returns, and each field is the expression the
    source computes. *)
Lemma position_info_returns lat1 lon1 alt1 lat2 lon2 alt2 :
  let theta := centre_angle (math.radians lat1) (math.radians lon1)
                            (math.radians lat2) (math.radians lon2) in
  let b := norm_bearing (raw_bearing (math.radians lat1) (math.radians lon1)
                                     (math.radians lat2) (math.radians lon2)) in
  let ta := radius + alt1 in
  let tb := radius + alt2 in
  let el := math.atan2 ((cos theta * tb) - ta) (sin theta * tb) in
  exists p,
    position_info (lat1, lon1, alt1) (lat2, lon2, alt2) = OK p
    /\ angle_at_centre_radians p = theta
    /\ bearing_radians p = b
    /\ bearing p = math.degrees b
    /\ elevation_radians p = el
    /\ elevation p = math.degrees el
    /\ great_circle_distance p = theta * radius
    /\ straight_distance p = sqrt ((ta ^ 2) + (tb ^ 2) - 2 * tb * ta * cos theta).
Proof.
  intros theta b ta tb el.
  unfold position_info.
  rewrite sqrt_OK by apply squares_nonneg. cbn [mbind result_bind].
  fold theta. rewrite sqrt_OK by (apply cosine_rule_nonneg, COS_bound).
  cbn [mbind result_bind].
  eexists. split; [reflexivity|]. simpl. repeat split.
Qed.


Lemma degrees_lt x y : x < y -> math.degrees x < math.degrees y.
Proof.
  intros H. unfold math.degrees.
  apply Rmult_lt_compat_r; [|assumption].
  apply Rdiv_lt_0_compat; [lra | apply PI_RGT_0].
Qed.

Lemma degrees_0 : math.degrees 0 = 0.
Proof. unfold math.degrees. lra. Qed.

Lemma degrees_half_pi : math.degrees (PI / 2) = 90.
Proof. unfold math.degrees. field. apply PI_neq0. Qed.

Lemma degrees_neg_half_pi : math.degrees (- (PI / 2)) = -90.
Proof. unfold math.degrees. field. apply PI_neq0. Qed.


Lemma radians_0 : math.radians 0 = 0.
Proof. unfold math.radians. lra. Qed.


(** C7 (the code at the failing input): on binary64 a bearing that
    [atan2] returns just below zero is lost when [2 * pi] is added: the
    sum rounds to [2 * pi] and the bearing field is 360.0, outside
    [[0, 360)].  So it is for [-0x1.70e5bd46d429ep-57], about -1e-17, the
    value of [atan2(sa, sb)] for an observer at (0, 0, 0) and a target at
    (1, -1e-17, 0), and at both ends of the range of such bearings, from
    [-2^-51] to the negative float closest to zero. *)
Theorem position_info_bearing_360 :
  b64.bearing_field (-0x1.70e5bd46d429ep-57)%float = 360%float
  /\ b64.bearing_field (-0x1p-51)%float = 360%float
  /\ b64.bearing_field (-0x1p-1074)%float = 360%float.
Proof. repeat split; vm_compute; reflexivity. Qed.





(** Why the amended range asks for a target above the centre of the
    sphere: a target a quarter turn away and two radii down is seen at
    -135 degrees. *)
Lemma position_info_elevation_below_centre :
  exists p,
    position_info (0, 0, 0) (0, 90, -12729926) = OK p /\ elevation p = -135.
Proof.
  destruct (position_info_returns 0 0 0 0 90 (-12729926))
    as (p & Hp & _ & _ & _ & _ & He & _).
  exists p. split; [assumption|]. rewrite He.
  assert (H90 : math.radians 90 = PI / 2).
  { unfold math.radians. lra. }
  assert (Htheta : centre_angle (math.radians 0) (math.radians 0)
                                (math.radians 0) (math.radians 90) = PI / 2).
  { unfold centre_angle.
    rewrite radians_0, H90, Rminus_0_r, sin_0, cos_0, sin_PI2, cos_PI2.
    replace ((1 * 1) ^ 2 + (1 * 0 - 0 * 1 * 0) ^ 2) with 1 by ring.
    rewrite sqrt_1. replace (0 * 0 + 1 * 1 * 0) with 0 by ring.
    apply atan2_pos_0. lra. }
  rewrite Htheta, sin_PI2, cos_PI2.
  unfold math.atan2, radius.
  destruct (Rlt_dec 0 (1 * (6364963.0 + -12729926))); [lra|].
  destruct (Rlt_dec (1 * (6364963.0 + -12729926)) 0); [|lra].
  destruct (Rle_dec 0 (0 * (6364963.0 + -12729926) - (6364963.0 + 0))); [lra|].
  replace (0 * (6364963.0 + -12729926) - (6364963.0 + 0)) with (-6364963) by lra.
  replace (1 * (6364963.0 + -12729926)) with (-6364963) by lra.
  replace (-6364963 / -6364963) with 1 by (field; lra).
  rewrite atan_1. unfold math.degrees. field. apply PI_neq0.
Qed.

(** *** Coincident ground positions *)

Lemma centre_angle_same lat lon : centre_angle lat lon lat lon = 0.
Proof.
  unfold centre_angle.
  replace (lon - lon) with 0 by ring. rewrite sin_0, cos_0.
  replace ((cos lat * 0) ^ 2 + (cos lat * sin lat - sin lat * cos lat * 1) ^ 2)
    with 0 by ring.
  rewrite sqrt_0.
  replace (sin lat * sin lat + cos lat * cos lat * 1)
    with (Rsqr (sin lat) + Rsqr (cos lat)) by (unfold Rsqr; ring).
  rewrite sin2_cos2. apply atan2_0_pos. lra.
Qed.

Lemma raw_bearing_same lat lon : raw_bearing lat lon lat lon = 0.
Proof.
  unfold raw_bearing.
  replace (lon - lon) with 0 by ring. rewrite sin_0, cos_0.
  replace (cos lat * 0) with 0 by ring.
  replace (cos lat * sin lat - sin lat * cos lat * 1) with 0 by ring.
  apply atan2_0_0.
Qed.

(** A target straight above the observer is seen at the zenith, due
    north by convention, at a distance equal to the difference in altitude. *)
Lemma position_info_above lat lon alt1 alt2 :
  alt1 < alt2 ->
  exists p,
    position_info (lat, lon, alt1) (lat, lon, alt2) = OK p
    /\ elevation p = 90
    /\ bearing p = 0
    /\ straight_distance p = alt2 - alt1.
Proof.
  intros Halt.
  destruct (position_info_returns lat lon alt1 lat lon alt2)
    as (p & Hp & _ & _ & Hb & _ & He & _ & Hd).
  exists p. split; [assumption|].
  rewrite centre_angle_same in He, Hd.
  rewrite raw_bearing_same in Hb.
  rewrite sin_0, cos_0 in He. rewrite cos_0 in Hd.
  repeat split.
  - rewrite He, Rmult_0_l, atan2_pos_0 by lra.
    apply degrees_half_pi.
  - rewrite Hb. unfold norm_bearing.
    destruct (Rlt_dec 0 0); [lra | apply degrees_0].
  - rewrite Hd.
    replace ((radius + alt1) ^ 2 + (radius + alt2) ^ 2
             - 2 * (radius + alt2) * (radius + alt1) * 1)
      with ((alt2 - alt1) * (alt2 - alt1)) by ring.
    apply sqrt_square. lra.
Qed.

(** C9: the overhead case.  With the observer at (37.4300, -89.6436, 161)
    and the target at (37.4300, -89.6436, 1000), [position_info] returns an
    elevation of 90 degrees, a bearing of 0 degrees and a straight distance
    of 839 m. *)
Theorem position_info_overhead :
  exists p,
    position_info (37.4300, -89.6436, 161) (37.4300, -89.6436, 1000) = OK p
    /\ elevation p = 90
    /\ bearing p = 0
    /\ straight_distance p = 839.
Proof.
  destruct (position_info_above 37.4300 (-89.6436) 161 1000)
    as (p & Hp & Hel & Hb & Hd); [lra|].
  exists p. repeat split; try assumption.
  rewrite Hd. lra.
Qed.

(** *** Symmetry, in exact arithmetic *)

Lemma cross_dot lat1 lat2 d :
  (cos lat2 * sin d) ^ 2
  + (cos lat1 * sin lat2 - sin lat1 * cos lat2 * cos d) ^ 2
  = 1 - (sin lat1 * sin lat2 + cos lat1 * cos lat2 * cos d) ^ 2.
Proof.
  pose proof (sin2_cos2 lat1) as H1. pose proof (sin2_cos2 lat2) as H2.
  pose proof (sin2_cos2 d) as Hd. unfold Rsqr in *.
  set (s1 := sin lat1) in *. set (c1 := cos lat1) in *.
  set (s2 := sin lat2) in *. set (c2 := cos lat2) in *.
  set (sd := sin d) in *. set (cd := cos d) in *.
  apply Rminus_diag_uniq.
  transitivity (c2 * c2 * sd * sd * (1 - (s1 * s1 + c1 * c1))
                + c2 * c2 * (s1 * s1 + c1 * c1) * ((sd * sd + cd * cd) - 1)
                + ((s1 * s1 + c1 * c1) - 1) * (s2 * s2 + c2 * c2)
                + ((s2 * s2 + c2 * c2) - 1)).
  - ring.
  - rewrite H1, H2, Hd. ring.
Qed.

(** On the reals the angle at the centre does not depend on which point
    comes first.  Binary64 does not keep this: the two orders round
    differently. *)
Lemma centre_angle_sym lat1 lon1 lat2 lon2 :
  centre_angle lat1 lon1 lat2 lon2 = centre_angle lat2 lon2 lat1 lon1.
Proof.
  unfold centre_angle. rewrite !cross_dot.
  replace (lon1 - lon2) with (- (lon2 - lon1)) by ring.
  rewrite cos_neg.
  f_equal; [f_equal; f_equal; f_equal; ring | ring].
Qed.

(** ** The visibility filter *)

Section Step2Facts.

Variable parse : string -> R.
Variable args : Args.

Local Abbreviation is_visible := (visible parse args).
Local Abbreviation body := (filter_entry parse args).
Local Abbreviation entries_loop := (for_entries parse args).
Local Abbreviation files_loop := (for_files parse args).

Lemma position_info_total (l b : Position) : exists p, position_info l b = OK p.
Proof.
  destruct l as [[lat1 lon1] alt1], b as [[lat2 lon2] alt2].
  destruct (position_info_returns lat1 lon1 alt1 lat2 lon2 alt2) as (p & Hp & _).
  now exists p.
Qed.

Lemma visible_dec (e : Entry) : is_visible e \/ ~ is_visible e.
Proof.
  destruct (position_info_total (observer args)
              (entry_lat e, entry_lon e, entry_alt e)) as [p Hp].
  destruct (Rgt_dec (elevation p) (args_min_el args)) as [Hel | Hel].
  - destruct (Rlt_dec (Rabs (observer_time parse args - parse (entry_datetime e)))
                (args_window args)) as [Ht | Ht].
    + left. now exists p.
    + right. intros (q & Hq & _ & Hq'). contradiction.
  - right. intros (q & Hq & Hq' & _).
    rewrite Hp in Hq. injection Hq as <-. contradiction.
Qed.

(** A record that passes both tests is stored under its serial. *)
Lemma filter_entry_visible serials e :
  is_visible e -> body serials e = OK (<[entry_serial e := e]> serials).
Proof.
  intros (p & Hp & Hel & Ht). unfold filter_entry.
  rewrite Hp. cbn [mbind result_bind].
  destruct (Rgt_dec _ _); [|contradiction].
  destruct (Rlt_dec _ _); [reflexivity | contradiction].
Qed.

(** A record that fails either test leaves the match set as it is. *)
Lemma filter_entry_not_visible serials e :
  ~ is_visible e -> body serials e = OK serials.
Proof.
  intros Hnot. unfold filter_entry.
  destruct (position_info_total (observer args)
              (entry_lat e, entry_lon e, entry_alt e)) as [p Hp].
  rewrite Hp. cbn [mbind result_bind].
  destruct (Rgt_dec _ _) as [Hel | Hel]; [|reflexivity].
  destruct (Rlt_dec _ _) as [Ht | Ht]; [|reflexivity].
  exfalso. apply Hnot. now exists p.
Qed.

(** On the reals the loop over entries always ends with a dict. *)
Lemma for_entries_total l : forall serials, exists m, entries_loop serials l = OK m.
Proof.
  induction l as [|e l IH]; intros serials; simpl.
  - now exists serials.
  - destruct (visible_dec e) as [Hv | Hv].
    + rewrite filter_entry_visible by assumption. apply IH.
    + rewrite filter_entry_not_visible by assumption. apply IH.
Qed.

Lemma for_entries_app l1 l2 : forall serials,
  entries_loop serials (l1 ++ l2) =
  entries_loop serials l1 ≫= (fun m => entries_loop m l2).
Proof.
  induction l1 as [|e l1 IH]; intros serials; simpl; [reflexivity|].
  destruct (body serials e) as [m | err]; simpl; [apply IH | reflexivity].
Qed.

(** The two nested loops are one loop over the entries of the files that
    load. *)
Lemma for_files_entries files : forall serials,
  files_loop serials files = entries_loop serials (entries_seen files).
Proof.
  induction files as [|f files IH]; intros serials; [reflexivity|].
  simpl. unfold entries_seen. simpl.
  destruct (load_summary_file f) as [[|e data]|]; simpl.
  - apply IH.
  - destruct (body serials e) as [m | err]; simpl; [|reflexivity].
    rewrite for_entries_app.
    destruct (entries_loop m data) as [m' | err]; simpl; [apply IH | reflexivity].
  - apply IH.
Qed.


(** Whatever is stored under [s] at the end was there at the start or is
    a visible entry of the input with serial [s]. *)
Lemma for_entries_origin s x l : forall serials m,
  entries_loop serials l = OK m ->
  m !! s = Some x ->
  serials !! s = Some x \/ (In x l /\ entry_serial x = s /\ is_visible x).
Proof.
  induction l as [|e l IH]; intros serials m Hrun Hx; simpl in Hrun.
  - injection Hrun as <-. now left.
  - destruct (visible_dec e) as [Hv | Hv].
    + rewrite filter_entry_visible in Hrun by assumption.
      destruct (IH _ _ Hrun Hx) as [Hin | (Hin & Hs & Hvx)].
      * destruct (decide (entry_serial e = s)) as [Heq | Hne].
        -- rewrite Heq, lookup_insert_eq in Hin. injection Hin as <-.
           right. repeat split; [now left | assumption | assumption].
        -- rewrite lookup_insert_ne in Hin by assumption. now left.
      * right. repeat split; [now right | assumption | assumption].
    + rewrite filter_entry_not_visible in Hrun by assumption.
      destruct (IH _ _ Hrun Hx) as [Hin | (Hin & Hs & Hvx)]; [now left|].
      right. repeat split; [now right | assumption | assumption].
Qed.


Lemma step2_main_entries files :
  step2_main parse args files = entries_loop ∅ (entries_seen files).
Proof. apply for_files_entries. Qed.



End Step2Facts.

(** *** The sample run *)








(** * Further properties *)

(** ** The atmosphere model, band by band *)

(** Where [getDensity] returns: from 100 km below sea level up to 84852 m
    it returns a positive density, and above 84852 m it raises
    IndexError. *)
Theorem getDensity_outcome altitude :
  (-100000 <= altitude <= 84852 ->
   exists rho, getDensity altitude = OK rho /\ 0 < rho)
  /\ (84852 < altitude -> getDensity altitude = Raise IndexError).
Proof.
  split.
  - intros [_ Hle]. now apply getDensity_total.
  - intros Hgt. apply getDensity_above_top. lra.
Qed.

Lemma fabs_small_iff_0 g :
  (g = 0 \/ 1e-7 <= Rabs g) ->
  (Rabs (g / 1000.0) < 1e-10 <-> g = 0).
Proof.
  intros Hg. unfold Rdiv. rewrite Rabs_mult, (Rabs_pos_eq (/ 1000.0)) by lra.
  split.
  - intros Hsmall. destruct Hg as [-> | Hbig]; [reflexivity | lra].
  - intros ->. rewrite Rabs_R0. lra.
Qed.

(** The density of a band as a function of the height above its base. *)
Lemma band_density_decreasing T0 g p da db :
  0 < T0 -> 0 < p ->
  (g = 0 \/ 1e-7 <= g \/ (g <= -1e-7 /\ - g < gMR)) ->
  da < db ->
  0 < T0 + g / 1000.0 * da -> 0 < T0 + g / 1000.0 * db ->
  densitySL * pressure_rel T0 (g / 1000.0) p db * temperatureSL
    / (T0 + g / 1000.0 * db + deltaTemperature)
  < densitySL * pressure_rel T0 (g / 1000.0) p da * temperatureSL
    / (T0 + g / 1000.0 * da + deltaTemperature).
Proof.
  intros HT0 Hp Hg Hlt HTa HTb.
  assert (HgMR : 34 < gMR) by (unfold gMR, gravity, airMolWeight, RGas; lra).
  unfold pressure_rel, densitySL, temperatureSL, deltaTemperature.
  destruct Hg as [-> | Hg].
  - (* isothermal *)
    destruct (Rlt_dec (Rabs (0 / 1000.0)) 1e-10) as [_ | Hn].
    2:{ exfalso. apply Hn. apply fabs_small_iff_0; auto. }
    replace (T0 + 0 / 1000.0 * db + 0.0) with T0 by lra.
    replace (T0 + 0 / 1000.0 * da + 0.0) with T0 by lra.
    assert (Hexp : exp (-1 * gMR * db / 1000.0 / T0)
                   < exp (-1 * gMR * da / 1000.0 / T0)).
    { apply exp_increasing. unfold Rdiv.
      apply Rmult_lt_compat_r; [now apply Rinv_0_lt_compat|]. nra. }
    unfold Rdiv. apply Rmult_lt_compat_r; [now apply Rinv_0_lt_compat|]. nra.
  - destruct (Rlt_dec (Rabs (g / 1000.0)) 1e-10) as [Hsmall | _].
    { exfalso. apply fabs_small_iff_0 in Hsmall.
      - lra.
      - right. destruct Hg as [Hg | [Hg _]].
        + rewrite Rabs_pos_eq; lra.
        + rewrite Rabs_left; lra. }
    set (k := gMR / (g / 1000.0) / 1000.0).
    set (Ta := T0 + g / 1000.0 * da) in *.
    set (Tb := T0 + g / 1000.0 * db) in *.
    replace (Ta + 0.0) with Ta by lra. replace (Tb + 0.0) with Tb by lra.
    assert (Hxa : 0 < T0 / Ta) by now apply Rdiv_lt_0_compat.
    assert (Hxb : 0 < T0 / Tb) by now apply Rdiv_lt_0_compat.
    assert (Hform : forall T, 0 < T ->
              1.225 * (p * Rpower (T0 / T) k) * 288.15 / T
              = 1.225 * p * 288.15 / T0 * Rpower (T0 / T) (k + 1)).
    { intros T HT. rewrite Rpower_plus, Rpower_1 by now apply Rdiv_lt_0_compat.
      unfold Rdiv. generalize (Rpower (T0 * / T) k). intros q.
      field_simplify_eq; lra. }
    rewrite !Hform by assumption.
    apply Rmult_lt_compat_l.
    { apply Rdiv_lt_0_compat; [nra | assumption]. }
    assert (Hk : k = gMR / g) by (unfold k; field; lra).
    destruct Hg as [Hpos | [Hneg Hbound]].
    + (* temperature rising with height *)
      assert (Tab : Ta < Tb) by (unfold Ta, Tb; nra).
      apply Rlt_Rpower_l.
      * rewrite Hk. assert (0 < gMR / g) by (apply Rdiv_lt_0_compat; lra). lra.
      * split; [assumption|].
        unfold Rdiv. apply Rmult_lt_compat_l; [assumption|].
        apply Rinv_lt_contravar; [now apply Rmult_lt_0_compat | assumption].
    + (* temperature falling with height *)
      assert (Tab : Tb < Ta) by (unfold Ta, Tb; nra).
      apply Rpower_neg_decreasing.
      * assumption.
      * unfold Rdiv. apply Rmult_lt_compat_l; [assumption|].
        apply Rinv_lt_contravar; [now apply Rmult_lt_0_compat | assumption].
      * rewrite Hk.
        assert (gMR / g < -1); [|lra].
        apply Rmult_lt_reg_r with (- g); [lra|].
        replace (gMR / g * - g) with (- gMR) by (field; lra). lra.
Qed.

(** The parameters of the seven bands the scan can pick. *)
Lemma band_parameters altitude i :
  (i < 7)%nat -> band_of altitude i ->
  exists baseTemp g p base,
    temperatures !! i = Some baseTemp /\ tempGrads !! i = Some g
    /\ pressureRels !! i = Some p /\ altitudes !! i = Some base
    /\ 0 < baseTemp /\ 0 < p
    /\ 0 < baseTemp + g / 1000.0 * (altitude - base)
    /\ (g = 0 \/ 1e-7 <= g \/ (g <= -1e-7 /\ - g < 34)).
Proof.
  intros Hi Hband. unfold band_of in Hband.
  do 7 (destruct i as [|i];
    [simpl in Hband; destruct Hband as [[Hz | Hlo] Hhi]; try discriminate Hz;
     do 4 eexists; repeat (split; [reflexivity|]); repeat split; lra|]).
  lia.
Qed.

Lemma pick_region_in_band altitude i :
  (i < 7)%nat -> band_of altitude i ->
  (if Rgt_dec altitude 0 then pick_region altitude 0%nat else OK 0%nat) = OK i.
Proof.
  intros Hi Hband.
  destruct (region_cases altitude) as (j & Hj & Hbandj & Hpick).
  { unfold band_of in Hband.
    do 7 (destruct i as [|i]; [simpl in Hband; lra|]). lia. }
  rewrite Hpick. f_equal.
  unfold band_of in Hband, Hbandj.
  do 7 (destruct i as [|i];
    [do 7 (destruct j as [|j]; [simpl in Hband, Hbandj; try reflexivity;
        exfalso; destruct Hband as [[Hz | Hlo] Hhi], Hbandj as [[Hz' | Hlo'] Hhi'];
        try discriminate; lra|]); lia|]).
  lia.
Qed.

(** Inside one band the density strictly decreases with altitude. *)
Lemma band_decreasing i a b :
  (i < 7)%nat -> band_of a i -> band_of b i -> a < b ->
  exists rho_a rho_b,
    getDensity a = OK rho_a /\ getDensity b = OK rho_b /\ rho_b < rho_a.
Proof.
  intros Hi Ha Hb Hab.
  destruct (band_parameters a i Hi Ha)
    as (T0 & g & p & base & Ht & Hg & Hp & Hbase & HT0 & Hp0 & HTa & Hgrad).
  destruct (band_parameters b i Hi Hb)
    as (T0' & g' & p' & base' & Ht' & Hg' & Hp' & Hbase' & _ & _ & HTb & _).
  rewrite Ht in Ht'. rewrite Hg in Hg'. rewrite Hp in Hp'. rewrite Hbase in Hbase'.
  injection Ht' as <-. injection Hg' as <-. injection Hp' as <-.
  injection Hbase' as <-.
  do 2 eexists. split; [|split].
  - eapply getDensity_in_band; try eassumption. now apply pick_region_in_band.
  - eapply getDensity_in_band; try eassumption. now apply pick_region_in_band.
  - apply band_density_decreasing; try assumption; [|lra].
    assert (HgMR : 34 < gMR) by (unfold gMR, gravity, airMolWeight, RGas; lra).
    destruct Hgrad as [H0 | [Hpos | [Hneg Hbound]]]; [now left | right; now left |].
    right. right. split; lra.
Qed.

(** Between two consecutive base altitudes of the table the density
    strictly decreases with altitude, for altitudes at least a millimetre
    apart: for [lo < a], [a + 0.001 <= b] and [b <= hi], with [lo] and [hi]
    the entries [i] and [i + 1] of [altitudes], [getDensity a] and
    [getDensity b] both return and the first is strictly greater. *)
Theorem getDensity_decreasing_between_bases i lo hi a b :
  altitudes !! i = Some lo -> altitudes !! (i + 1)%nat = Some hi ->
  lo < a -> a + 0.001 <= b -> b <= hi ->
  exists rho_a rho_b,
    getDensity a = OK rho_a /\ getDensity b = OK rho_b /\ rho_b < rho_a.
Proof.
  intros Hlo Hhi Ha Hab Hb.
  assert (Hi : (i < 7)%nat).
  { apply lookup_lt_Some in Hhi. simpl in Hhi. lia. }
  apply (band_decreasing i); try assumption; [| |lra].
  - unfold band_of. rewrite Hlo, Hhi. split; [now right | lra].
  - unfold band_of. rewrite Hlo, Hhi. split; [right; lra | lra].
Qed.

Lemma getDensity_decreasing_between_bases_witness :
  exists rho_a rho_b,
    getDensity 12000 = OK rho_a /\ getDensity 15000 = OK rho_b /\ rho_b < rho_a.
Proof.
  apply (getDensity_decreasing_between_bases 1 11000 20000 12000 15000);
    try reflexivity; lra.
Defined.

(** Below sea level band 0 is extrapolated: from 100 km down to a
    millimetre below sea level the density is above 1.225, and from a
    millimetre above sea level up to 11000 m it is below. *)
Theorem getDensity_around_sea_level altitude :
  (-100000 <= altitude <= -0.001 ->
   exists rho, getDensity altitude = OK rho /\ 1.225 < rho)
  /\ (0.001 <= altitude <= 11000 ->
      exists rho, getDensity altitude = OK rho /\ rho < 1.225).
Proof.
  assert (Hb : forall x, x <= 11000 -> band_of x 0).
  { intros x Hx. unfold band_of. simpl. split; [now left | lra]. }
  split; intros [Hlo Hhi].
  - destruct (band_decreasing 0 altitude 0)
      as (ra & r0 & Hra & Hr0 & Hlt); [lia | apply Hb; lra | apply Hb; lra | lra |].
    rewrite getDensity_0 in Hr0. injection Hr0 as <-.
    exists ra. split; [assumption | lra].
  - destruct (band_decreasing 0 0 altitude)
      as (r0 & ra & Hr0 & Hra & Hlt); [lia | apply Hb; lra | apply Hb; lra | lra |].
    rewrite getDensity_0 in Hr0. injection Hr0 as <-.
    exists ra. split; [assumption | lra].
Qed.

(** ** The descent rate *)

(** Above 84852 m [seaLevelDescentRate] raises the IndexError of
    [getDensity], whatever the rate; inside the table, from 0 to 84852 m,
    a rate of at most 1e150 in absolute value gives a value, and that
    value is not negative. *)
Theorem seaLevelDescentRate_outcome descent_rate altitude :
  (0 <= altitude <= 84852 -> Rabs descent_rate <= 1e150 ->
   exists v, seaLevelDescentRate descent_rate altitude = OK v /\ 0 <= v)
  /\ (84852 < altitude
      -> seaLevelDescentRate descent_rate altitude = Raise IndexError).
Proof.
  split.
  - intros [_ Hle] _.
    destruct (getDensity_total altitude Hle) as (rho & Hrho & Hpos).
    eexists. split; [now apply (seaLevelDescentRate_abs _ _ rho)|].
    apply Rmult_le_pos; [apply Rabs_pos | apply sqrt_pos].
  - intros Hgt. unfold seaLevelDescentRate.
    rewrite getDensity_above_top by lra. reflexivity.
Qed.

(** In the troposphere, a metre or more above sea level, the sea-level
    rate of a sonde that moves is strictly slower than the measured one
    (for a rate between 1e-150 and 1e150 in absolute value). *)
Theorem seaLevelDescentRate_slower descent_rate altitude :
  1 <= altitude <= 11000 ->
  1e-150 <= Rabs descent_rate <= 1e150 ->
  exists v,
    seaLevelDescentRate descent_rate altitude = OK v
    /\ v < Rabs descent_rate.
Proof.
  intros [Hpos Htop] [Hrate _].
  assert (Hb : forall x, x <= 11000 -> band_of x 0).
  { intros x Hx. unfold band_of. simpl. split; [now left | lra]. }
  destruct (band_decreasing 0 0 altitude)
    as (r0 & rho & Hr0 & Hrho & Hlt); [lia | apply Hb; lra | apply Hb; lra | lra |].
  rewrite getDensity_0 in Hr0. injection Hr0 as <-.
  destruct (getDensity_total altitude) as (rho' & Hrho' & Hrho0); [lra|].
  rewrite Hrho in Hrho'. injection Hrho' as <-.
  exists (Rabs descent_rate * sqrt (rho / 1.225)).
  split; [now apply seaLevelDescentRate_abs|].
  assert (Hq : sqrt (rho / 1.225) < 1).
  { rewrite <- sqrt_1. apply sqrt_lt_1_alt. split.
    - left. apply Rdiv_lt_0_compat; lra.
    - apply Rmult_lt_reg_r with 1.225; [lra|].
      unfold Rdiv. rewrite Rmult_assoc, Rinv_l by lra. lra. }
  assert (0 < Rabs descent_rate) by lra.
  nra.
Qed.

Lemma seaLevelDescentRate_slower_witness :
  exists v,
    seaLevelDescentRate (-12) 9000 = OK v
    /\ v < Rabs (-12).
Proof.
  apply (seaLevelDescentRate_slower (-12) 9000); [lra|].
  rewrite Rabs_left by lra. split; lra.
Defined.

(** ** The look-angle solver on special geometries *)

Lemma radians_minus x y : math.radians x - math.radians y = math.radians (x - y).
Proof. unfold math.radians. ring. Qed.

Lemma radians_range x : 0 < x < 180 -> 0 < math.radians x < PI.
Proof.
  intros [Hlo Hhi]. pose proof PI_RGT_0. unfold math.radians. split.
  - apply Rmult_lt_0_compat; [assumption | lra].
  - replace PI with (180 * (PI / 180)) at 2 by (field; lra).
    apply Rmult_lt_compat_r; lra.
Qed.

Lemma degrees_pi : math.degrees PI = 180.
Proof. unfold math.degrees. field. apply PI_neq0. Qed.

Lemma atan2_0_neg x : x < 0 -> math.atan2 0 x = PI.
Proof.
  intros Hx. unfold math.atan2.
  destruct (Rlt_dec 0 x); [lra|]. destruct (Rlt_dec x 0); [|lra].
  destruct (Rle_dec 0 0); [|lra].
  unfold Rdiv. rewrite Rmult_0_l, atan_0. ring.
Qed.

(** The degree fields are the radian fields converted. *)
Lemma angle_at_centre_degrees l b p :
  position_info l b = OK p ->
  angle_at_centre p = math.degrees (angle_at_centre_radians p).
Proof.
  destruct l as [[lat1 lon1] alt1], b as [[lat2 lon2] alt2].
  intros Hp. unfold position_info in Hp.
  rewrite sqrt_OK in Hp by apply squares_nonneg. cbn [mbind result_bind] in Hp.
  rewrite sqrt_OK in Hp by (apply cosine_rule_nonneg, COS_bound).
  cbn [mbind result_bind] in Hp. now injection Hp as <-.
Qed.

(** The fields of the dict, for a call that returns. *)
Lemma position_info_fields lat1 lon1 alt1 lat2 lon2 alt2 p :
  position_info (lat1, lon1, alt1) (lat2, lon2, alt2) = OK p ->
  let theta := centre_angle (math.radians lat1) (math.radians lon1)
                            (math.radians lat2) (math.radians lon2) in
  let ta := radius + alt1 in
  let tb := radius + alt2 in
  angle_at_centre p = math.degrees theta
  /\ bearing p =
     math.degrees (norm_bearing (raw_bearing (math.radians lat1) (math.radians lon1)
                                             (math.radians lat2) (math.radians lon2)))
  /\ elevation p =
     math.degrees (math.atan2 ((cos theta * tb) - ta) (sin theta * tb))
  /\ great_circle_distance p = theta * radius
  /\ straight_distance p = sqrt ((ta ^ 2) + (tb ^ 2) - 2 * tb * ta * cos theta).
Proof.
  intros Hp theta ta tb.
  destruct (position_info_returns lat1 lon1 alt1 lat2 lon2 alt2)
    as (p' & Hp' & Ha & _ & Hb & _ & He & Hg & Hs).
  pose proof (angle_at_centre_degrees _ _ _ Hp') as Ha'.
  rewrite Hp' in Hp. injection Hp as <-.
  rewrite Ha in Ha'. repeat split; assumption.
Qed.

(** The bearing of a target on the observer's meridian. *)
Lemma raw_bearing_meridian lat1 lat2 lon :
  raw_bearing lat1 lon lat2 lon = math.atan2 0 (sin (lat2 - lat1)).
Proof.
  unfold raw_bearing.
  replace (lon - lon) with 0 by ring.
  rewrite sin_0, cos_0, Rmult_0_r, sin_minus. f_equal. ring.
Qed.

(** A target due north, on the observer's meridian and at least a
    thousandth of a degree away: whenever [position_info] returns, the
    bearing is 0. *)
Theorem position_info_due_north lat1 lat2 lon alt1 alt2 p :
  -90 <= lat1 -> lat1 + 0.001 <= lat2 -> lat2 <= 90 -> lat2 - lat1 < 180 ->
  position_info (lat1, lon, alt1) (lat2, lon, alt2) = OK p ->
  bearing p = 0.
Proof.
  intros Hlo Hsep Hhi Hhalf Hp.
  destruct (position_info_fields _ _ _ _ _ _ _ Hp) as (_ & Hb & _).
  assert (Hd : 0 < math.radians lat2 - math.radians lat1 < PI).
  { rewrite radians_minus. apply radians_range. lra. }
  rewrite Hb, raw_bearing_meridian.
  rewrite atan2_0_pos by (apply sin_gt_0; lra).
  unfold norm_bearing. destruct (Rlt_dec 0 0); [lra | apply degrees_0].
Qed.

Lemma position_info_due_north_witness :
  exists p,
    position_info (37.43, -89.6436, 161) (38, -89.6436, 20000) = OK p
    /\ bearing p = 0.
Proof.
  destruct (position_info_returns 37.43 (-89.6436) 161 38 (-89.6436) 20000)
    as (p & Hp & _).
  exists p. split; [exact Hp|].
  apply (position_info_due_north 37.43 38 (-89.6436) 161 20000 p);
    [lra | lra | lra | lra | exact Hp].
Defined.

(** A target due south on the observer's meridian, at least a thousandth
    of a degree away: whenever [position_info] returns, the bearing is
    180. *)
Theorem position_info_due_south lat1 lat2 lon alt1 alt2 p :
  -90 <= lat2 -> lat2 + 0.001 <= lat1 -> lat1 <= 90 -> lat1 - lat2 < 180 ->
  position_info (lat1, lon, alt1) (lat2, lon, alt2) = OK p ->
  bearing p = 180.
Proof.
  intros Hlo Hsep Hhi Hhalf Hp.
  destruct (position_info_fields _ _ _ _ _ _ _ Hp) as (_ & Hb & _).
  assert (Hd : 0 < math.radians lat1 - math.radians lat2 < PI).
  { rewrite radians_minus. apply radians_range. lra. }
  rewrite Hb, raw_bearing_meridian.
  rewrite atan2_0_neg by (apply sin_lt_0_var; lra).
  pose proof PI_RGT_0. unfold norm_bearing.
  destruct (Rlt_dec PI 0); [lra | apply degrees_pi].
Qed.

Lemma position_info_due_south_witness :
  exists p,
    position_info (37.43, -89.6436, 161) (30, -89.6436, 20000) = OK p
    /\ bearing p = 180.
Proof.
  destruct (position_info_returns 37.43 (-89.6436) 161 30 (-89.6436) 20000)
    as (p & Hp & _).
  exists p. split; [exact Hp|].
  apply (position_info_due_south 37.43 30 (-89.6436) 161 20000 p);
    [lra | lra | lra | lra | exact Hp].
Defined.

(** Along the equator, for longitudes of at most 360 degrees in absolute
    value, between a thousandth of a degree and 179.999 degrees apart:
    whenever [position_info] returns, a target to the east is at bearing
    90 and a target to the west at bearing 270.  The west case is where a
    negative [atan2] gets [2 * pi] added. *)
Theorem position_info_along_equator lon1 lon2 alt1 alt2 p :
  Rabs lon1 <= 360 -> Rabs lon2 <= 360 ->
  0.001 <= Rabs (lon2 - lon1) <= 179.999 ->
  position_info (0, lon1, alt1) (0, lon2, alt2) = OK p ->
  bearing p = (if Rlt_dec lon1 lon2 then 90 else 270).
Proof.
  intros _ _ [Hsep Hhalf] Hp.
  destruct (position_info_fields _ _ _ _ _ _ _ Hp) as (_ & Hb & _).
  pose proof PI_RGT_0 as Hpi.
  rewrite Hb. unfold raw_bearing. rewrite !radians_0, sin_0, cos_0.
  replace (1 * 0 - 0 * 1 * cos (math.radians lon2 - math.radians lon1))
    with 0 by ring.
  rewrite Rmult_1_l.
  destruct (Rlt_dec lon1 lon2) as [Heast | Hwest].
  - rewrite Rabs_pos_eq in Hsep, Hhalf by lra.
    assert (Hd : 0 < math.radians lon2 - math.radians lon1 < PI).
    { rewrite radians_minus. apply radians_range. lra. }
    rewrite atan2_pos_0 by (apply sin_gt_0; lra).
    unfold norm_bearing. destruct (Rlt_dec (PI / 2) 0); [lra|].
    apply degrees_half_pi.
  - assert (Hneg : lon2 - lon1 < 0).
    { destruct (Req_dec lon1 lon2) as [-> | Hne]; [|lra].
      rewrite Rminus_diag, Rabs_R0 in Hsep. lra. }
    rewrite Rabs_left in Hsep, Hhalf by assumption.
    assert (Hd : 0 < math.radians lon1 - math.radians lon2 < PI).
    { rewrite radians_minus. apply radians_range. lra. }
    rewrite atan2_neg_0 by (apply sin_lt_0_var; lra).
    unfold norm_bearing, math.pi.
    destruct (Rlt_dec (- (PI / 2)) 0); [|lra].
    unfold math.degrees. field. apply PI_neq0.
Qed.

Lemma position_info_along_equator_witness :
  exists p,
    position_info (0, 10, 0) (0, -20, 30000) = OK p
    /\ bearing p = (if Rlt_dec 10 (-20) then 90 else 270).
Proof.
  destruct (position_info_returns 0 10 0 0 (-20) 30000) as (p & Hp & _).
  exists p. split; [exact Hp|].
  apply (position_info_along_equator 10 (-20) 0 30000 p);
    [rewrite Rabs_pos_eq by lra; lra | rewrite Rabs_left by lra; lra |
     | exact Hp].
  rewrite Rabs_left by lra. lra.
Defined.

(** ** The look-angle solver in general *)



(** A target at the observer's latitude and longitude and at least a
    metre higher or lower, for altitudes of at most 1e9 m in absolute
    value: whenever [position_info] returns, the target is at the zenith,
    elevation 90, or at the nadir, elevation -90; the bearing is 0 and so
    are the angle at the centre and the great circle distance. *)
Theorem position_info_vertical lat lon alt1 alt2 p :
  Rabs alt1 <= 1e9 -> Rabs alt2 <= 1e9 ->
  1 <= Rabs (alt2 - alt1) ->
  position_info (lat, lon, alt1) (lat, lon, alt2) = OK p ->
  elevation p = (if Rlt_dec alt1 alt2 then 90 else -90)
  /\ bearing p = 0
  /\ angle_at_centre p = 0
  /\ great_circle_distance p = 0.
Proof.
  intros _ _ Hsep Hp.
  destruct (position_info_fields _ _ _ _ _ _ _ Hp) as (Ha & Hb & He & Hg & _).
  rewrite centre_angle_same in Ha, He, Hg.
  rewrite raw_bearing_same in Hb.
  rewrite sin_0, cos_0, Rmult_0_l in He.
  split; [|split; [|split]].
  - rewrite He. destruct (Rlt_dec alt1 alt2) as [Hup | Hdown].
    + rewrite atan2_pos_0 by lra. apply degrees_half_pi.
    + assert (alt2 - alt1 < 0).
      { destruct (Req_dec alt1 alt2) as [-> | Hne]; [|lra].
        rewrite Rminus_diag, Rabs_R0 in Hsep. lra. }
      rewrite atan2_neg_0 by lra. apply degrees_neg_half_pi.
  - rewrite Hb. unfold norm_bearing.
    destruct (Rlt_dec 0 0); [lra | apply degrees_0].
  - rewrite Ha. apply degrees_0.
  - rewrite Hg. ring.
Qed.

Lemma position_info_vertical_witness :
  exists p,
    position_info (-34.9, 138.6, 25000) (-34.9, 138.6, 40) = OK p
    /\ elevation p = (if Rlt_dec 25000 40 then 90 else -90)
    /\ bearing p = 0
    /\ angle_at_centre p = 0
    /\ great_circle_distance p = 0.
Proof.
  destruct (position_info_returns (-34.9) 138.6 25000 (-34.9) 138.6 40)
    as (p & Hp & _).
  exists p. split; [exact Hp|].
  apply (position_info_vertical (-34.9) 138.6 25000 40 p);
    [rewrite Rabs_pos_eq by lra; lra | rewrite Rabs_pos_eq by lra; lra |
     | exact Hp].
  rewrite Rabs_left by lra. lra.
Defined.

(** Observer and target at the very same point, not below the centre of
    the sphere: whenever [position_info] returns, the elevation, the
    bearing, the angle at the centre and the great circle distance are all
    0.  (Below the centre binary64 gives an elevation of 180: there
    [sin(0) * tb] is a negative zero.) *)
Theorem position_info_same_point lat lon alt p :
  0 <= radius + alt ->
  position_info (lat, lon, alt) (lat, lon, alt) = OK p ->
  elevation p = 0 /\ bearing p = 0
  /\ angle_at_centre p = 0 /\ great_circle_distance p = 0.
Proof.
  intros _ Hp.
  destruct (position_info_fields _ _ _ _ _ _ _ Hp) as (Ha & Hb & He & Hg & _).
  rewrite centre_angle_same in Ha, He, Hg.
  rewrite raw_bearing_same in Hb.
  rewrite sin_0, cos_0, Rmult_0_l in He.
  split; [|split; [|split]].
  - rewrite He. replace (1 * (radius + alt) - (radius + alt)) with 0 by ring.
    rewrite atan2_0_0. apply degrees_0.
  - rewrite Hb. unfold norm_bearing.
    destruct (Rlt_dec 0 0); [lra | apply degrees_0].
  - rewrite Ha. apply degrees_0.
  - rewrite Hg. ring.
Qed.

Lemma position_info_same_point_witness :
  exists p,
    position_info (37.43, -89.6436, 161) (37.43, -89.6436, 161) = OK p
    /\ elevation p = 0 /\ bearing p = 0
    /\ angle_at_centre p = 0 /\ great_circle_distance p = 0.
Proof.
  destruct (position_info_returns 37.43 (-89.6436) 161 37.43 (-89.6436) 161)
    as (p & Hp & _).
  exists p. split; [exact Hp|].
  apply (position_info_same_point 37.43 (-89.6436) 161 p); [|exact Hp].
  unfold radius. lra.
Defined.

(** ** The filter loop as a whole *)

Section Step2More.

Variable parse : string -> R.
Variable args : Args.

Local Abbreviation is_visible := (visible parse args).
Local Abbreviation entries_loop := (for_entries parse args).


Lemma entries_seen_In e files :
  In e (entries_seen files) <->
  exists data, In (Some data) files /\ length data = 3%nat /\ In e data.
Proof.
  unfold entries_seen. induction files as [|f files IH]; simpl.
  - split; [intros [] | intros (d & [] & _)].
  - destruct f as [data|]; simpl.
    + destruct (Nat.eqb_spec (length data) 3) as [Hlen | Hlen]; simpl.
      * rewrite in_app_iff, IH. split.
        -- intros [Hin | (d & Hd & Hl & Hin)].
           ++ exists data. repeat split; [now left | assumption | assumption].
           ++ exists d. repeat split; [now right | assumption | assumption].
        -- intros (d & [Heq | Hd] & Hl & Hin).
           ++ injection Heq as <-. now left.
           ++ right. now exists d.
      * rewrite IH. split.
        -- intros (d & Hd & Hl & Hin).
           exists d. repeat split; [now right | assumption | assumption].
        -- intros (d & [Heq | Hd] & Hl & Hin).
           ++ injection Heq as <-. contradiction.
           ++ now exists d.
    + rewrite IH. split.
      * intros (d & Hd & Hl & Hin).
        exists d. repeat split; [now right | assumption | assumption].
      * intros (d & [Heq | Hd] & Hl & Hin); [discriminate|]. now exists d.
Qed.

(** The script never reports a flight it has no ground for: whatever the
    dict it ends with holds under a serial is an entry of that serial that
    passes the visibility test and comes from a summary file of exactly
    three entries. *)
Theorem step2_main_sound files m :
  step2_main parse args files = OK m ->
  forall s e, m !! s = Some e ->
    entry_serial e = s /\ is_visible e
    /\ exists data,
         In (Some data) files /\ length data = 3%nat /\ In e data.
Proof.
  rewrite step2_main_entries. intros Hm s e Hlook.
  destruct (for_entries_origin parse args _ _ _ _ _ Hm Hlook)
    as [Hempty | (Hin & Hs & Hv)].
  - rewrite lookup_empty in Hempty. discriminate.
  - repeat split; try assumption. now apply entries_seen_In.
Qed.


(** A file whose text does not decode, or that does not hold exactly
    three entries, changes nothing, wherever it stands in the list. *)
Theorem step2_main_skips_file files1 f files2 :
  (forall data, f = Some data -> length data <> 3%nat) ->
  step2_main parse args (files1 ++ f :: files2) =
  step2_main parse args (files1 ++ files2).
Proof.
  intros Hbad. rewrite !step2_main_entries. f_equal.
  unfold entries_seen. rewrite !omap_app. simpl.
  replace (load_summary_file f) with (@None (list Entry)); [reflexivity|].
  destruct f as [data|]; [|reflexivity]. simpl.
  destruct (Nat.eqb_spec (length data) 3) as [Hlen | Hlen]; [|reflexivity].
  now destruct (Hbad data eq_refl).
Qed.



End Step2More.

Lemma step2_main_sound_witness :
  exists m,
    step2_main sample_parse default_args sample_files = OK m
    /\ forall s e, m !! s = Some e ->
         entry_serial e = s /\ visible sample_parse default_args e
         /\ exists data,
              In (Some data) sample_files /\ length data = 3%nat /\ In e data.
Proof.
  destruct (for_entries_total sample_parse default_args
              (entries_seen sample_files) ∅) as [m Hm].
  rewrite <- step2_main_entries in Hm.
  exists m. split; [exact Hm|].
  exact (step2_main_sound sample_parse default_args sample_files m Hm).
Defined.

Lemma step2_main_skips_file_witness :
  step2_main sample_parse default_args
    ([Some [sample_launch; sample_burst; sample_landing]]
     ++ Some [sample_launch; sample_burst] :: [None]) =
  step2_main sample_parse default_args
    ([Some [sample_launch; sample_burst; sample_landing]] ++ [None]).
Proof.
  apply (step2_main_skips_file sample_parse default_args
           [Some [sample_launch; sample_burst; sample_landing]]
           (Some [sample_launch; sample_burst]) [None]).
  intros data Heq. injection Heq as <-. simpl. lia.
Defined.


(** ** Reading a telemetry export *)

Lemma telem_of_snoc l e :
  telem_of (l ++ [e]) = <[entry_datetime e := e]> (telem_of l).
Proof. unfold telem_of. now rewrite foldl_app. Qed.

(** Whatever the dict holds under a date is an entry of the data with that
    date. *)
Lemma telem_of_lookup_Some data k e :
  telem_of data !! k = Some e -> In e data /\ entry_datetime e = k.
Proof.
  induction data as [|x data IH] using rev_ind; intros Hlook.
  - unfold telem_of in Hlook. simpl in Hlook.
    rewrite lookup_empty in Hlook. discriminate.
  - rewrite telem_of_snoc in Hlook. rewrite in_app_iff.
    destruct (decide (entry_datetime x = k)) as [Heq | Hne].
    + rewrite Heq, lookup_insert_eq in Hlook. injection Hlook as <-.
      split; [right; now left | assumption].
    + rewrite lookup_insert_ne in Hlook by assumption.
      destruct (IH Hlook). split; [now left | assumption].
Qed.

(** Every date of the data is a key of the dict. *)
Lemma telem_of_lookup_In data e :
  In e data -> is_Some (telem_of data !! entry_datetime e).
Proof.
  induction data as [|x data IH] using rev_ind; intros Hin; [destruct Hin|].
  rewrite telem_of_snoc.
  destruct (decide (entry_datetime x = entry_datetime e)) as [Heq | Hne].
  - rewrite Heq, lookup_insert_eq. now eexists.
  - rewrite lookup_insert_ne by assumption. apply IH.
    apply in_app_iff in Hin as [Hin | [-> | []]]; [assumption | contradiction].
Qed.

(** With dates all different, the dict holds every entry under its date. *)
Lemma telem_of_lookup_NoDup data e :
  NoDup (entry_datetime <$> data) -> In e data ->
  telem_of data !! entry_datetime e = Some e.
Proof.
  induction data as [|x data IH] using rev_ind; intros Hnd Hin; [destruct Hin|].
  rewrite telem_of_snoc.
  rewrite fmap_app in Hnd. apply NoDup_app in Hnd as (Hnd & Hfresh & _).
  apply in_app_iff in Hin as [Hin | [-> | []]].
  - rewrite lookup_insert_ne; [now apply IH|].
    intros Heq. apply (Hfresh (entry_datetime e)).
    + apply list_elem_of_fmap. exists e. split; [reflexivity|].
      now apply list_elem_of_In.
    + simpl. rewrite Heq. apply list_elem_of_here.
  - apply lookup_insert_eq.
Qed.

Section SortedKeys.

Context {A : Type} (d : gmap string A).

Lemma sorted_keys_elem k : In k (sorted_keys d) <-> is_Some (d !! k).
Proof.
  unfold sorted_keys. rewrite <- list_elem_of_In, merge_sort_Permutation.
  rewrite list_elem_of_fmap. split.
  - intros ([k' a] & -> & Hin). apply elem_of_map_to_list in Hin. now exists a.
  - intros [a Ha]. exists (k, a). split; [reflexivity|].
    now apply elem_of_map_to_list.
Qed.

Lemma sorted_keys_NoDup : NoDup (sorted_keys d).
Proof.
  unfold sorted_keys. rewrite merge_sort_Permutation.
  apply NoDup_fst_map_to_list.
Qed.

Lemma sorted_keys_sorted : StronglySorted String.le (sorted_keys d).
Proof.
  apply Sorted_StronglySorted; [apply _|].
  apply Sorted_merge_sort. apply _.
Qed.

Lemma sorted_keys_length : length (sorted_keys d) = size d.
Proof.
  unfold sorted_keys. rewrite merge_sort_Permutation, length_fmap.
  apply length_map_to_list.
Qed.

End SortedKeys.

(** The path loop reads keys of the dict only, so it never raises KeyError:
    it returns one point per key, the position of the entry under it. *)
Lemma path_of_returns (d : gmap string Entry) keys :
  (forall k, In k keys -> is_Some (d !! k)) ->
  path_of d keys = Return (entry_position <$> omap (fun k => d !! k) keys).
Proof.
  induction keys as [|k keys IH]; intros Hkeys; simpl; [reflexivity|].
  destruct (Hkeys k) as [e He]; [now left|].
  unfold dict_getitem. rewrite He. cbn [mbind outcome_bind].
  rewrite IH by (intros k' Hin; apply Hkeys; now right).
  reflexivity.
Qed.

Lemma omap_lookup_keys (d : gmap string Entry) (keys : list string) :
  (forall k, In k keys -> is_Some (d !! k)) ->
  (forall k (e : Entry), d !! k = Some e -> entry_datetime e = k) ->
  entry_datetime <$> omap (fun k => d !! k) keys = keys.
Proof.
  intros Hkeys Hdate. induction keys as [|k keys IH]; [reflexivity|].
  simpl. destruct (Hkeys k) as [e He]; [now left|]. rewrite He. simpl.
  rewrite (Hdate _ _ He). f_equal. apply IH.
  intros k' Hin. apply Hkeys. now right.
Qed.

(** The dates of the kept entries are the sorted keys. *)
Lemma kept_entries_dates data :
  entry_datetime <$> kept_entries data = sorted_keys (telem_of data).
Proof.
  apply omap_lookup_keys.
  - intros k. apply sorted_keys_elem.
  - intros k e He. now apply telem_of_lookup_Some in He.
Qed.

Lemma kept_entries_elem data e :
  In e (kept_entries data) <-> telem_of data !! entry_datetime e = Some e.
Proof.
  unfold kept_entries. rewrite <- list_elem_of_In, list_elem_of_omap. split.
  - intros (k & _ & Hk). destruct (telem_of_lookup_Some _ _ _ Hk) as [_ <-].
    assumption.
  - intros He. exists (entry_datetime e). split; [|assumption].
    apply list_elem_of_In, sorted_keys_elem. now exists e.
Qed.

Lemma kept_entries_In data e : In e (kept_entries data) -> In e data.
Proof.
  intros He. apply kept_entries_elem in He.
  now apply telem_of_lookup_Some in He.
Qed.

Lemma kept_entries_nonempty data : data <> [] -> kept_entries data <> [].
Proof.
  intros Hne Hnil. destruct data as [|x data]; [contradiction|].
  destruct (telem_of_lookup_In (x :: data) x) as [e He]; [now left|].
  assert (Hin : In (entry_datetime x) (sorted_keys (telem_of (x :: data)))).
  { apply sorted_keys_elem. now exists e. }
  rewrite <- kept_entries_dates, Hnil in Hin. destruct Hin.
Qed.

(** The kept entries are in increasing order of date, without repeats. *)
Lemma kept_entries_sorted data :
  StronglySorted (fun a b => String.le (entry_datetime a) (entry_datetime b))
    (kept_entries data).
Proof.
  pose proof (sorted_keys_sorted (telem_of data)) as Hs.
  rewrite <- kept_entries_dates in Hs. revert Hs.
  generalize (kept_entries data). intros l.
  induction l as [|x l IH]; intros Hs; [constructor|].
  rewrite fmap_cons in Hs. apply StronglySorted_inv in Hs as [Hl Hx].
  constructor; [now apply IH|].
  rewrite Forall_fmap in Hx. exact Hx.
Qed.

(** The first kept entry has the least date of the data, the last one the
    greatest. *)
Lemma kept_entries_bounds data e_first e_last :
  head (kept_entries data) = Some e_first ->
  last (kept_entries data) = Some e_last ->
  forall e, In e data ->
    String.le (entry_datetime e_first) (entry_datetime e)
    /\ String.le (entry_datetime e) (entry_datetime e_last).
Proof.
  intros Hhead Hlast e He.
  (* the entry kept under the date of [e] *)
  destruct (telem_of_lookup_In data e He) as [e' He'].
  destruct (telem_of_lookup_Some _ _ _ He') as [_ Hdate].
  assert (Hin' : In e' (kept_entries data)).
  { apply kept_entries_elem. now rewrite Hdate. }
  rewrite <- Hdate.
  pose proof (kept_entries_sorted data) as Hsorted.
  apply head_Some in Hhead as [rest Hrest].
  apply last_Some in Hlast as [front Hfront].
  split.
  - rewrite Hrest in Hsorted, Hin'.
    apply StronglySorted_inv in Hsorted as [_ Hall].
    destruct Hin' as [<- | Hin']; [reflexivity|].
    rewrite Forall_forall in Hall. apply Hall. now apply list_elem_of_In.
  - rewrite Hfront in Hsorted, Hin'.
    apply in_app_iff in Hin' as [Hin' | [<- | []]]; [|reflexivity].
    apply StronglySorted_app in Hsorted as (Hcross & _ & _).
    apply Hcross; [now apply list_elem_of_In | apply list_elem_of_here].
Qed.

(** What [read_json_file] returns on decoded data that is not empty: the
    serial of the first kept entry, the date of the last one, and the
    positions of all of them. *)
Lemma read_json_file_returns data :
  data <> [] ->
  exists e_first e_last,
    head (kept_entries data) = Some e_first
    /\ last (kept_entries data) = Some e_last
    /\ read_json_file (Some data) =
       Return {| fd_serial := entry_serial e_first;
                 fd_last_time := entry_datetime e_last;
                 fd_path := entry_position <$> kept_entries data |}.
Proof.
  intros Hne. pose proof (kept_entries_nonempty data Hne) as Hkept.
  pose proof (kept_entries_dates data) as Hdates.
  unfold read_json_file. cbn [mbind outcome_bind].
  rewrite path_of_returns by (intros k; apply sorted_keys_elem).
  fold (kept_entries data).
  unfold kept_entries in *.
  set (d := telem_of data) in *. set (keys := sorted_keys d) in *.
  assert (Hkeys : forall k, In k keys -> is_Some (d !! k)).
  { intros k. apply sorted_keys_elem. }
  destruct keys as [|k0 keys'] eqn:Hk; [now destruct Hkept|].
  destruct (Hkeys k0) as [e0 He0]; [now left|].
  destruct (last_is_Some (k0 :: keys')) as [_ Hlast].
  destruct (Hlast ltac:(discriminate)) as [k1 Hk1].
  destruct (Hkeys k1) as [e1 He1].
  { apply list_elem_of_In. now apply last_Some_elem_of. }
  exists e0, e1.
  assert (Hlast_kept : last (omap (fun k => d !! k) (k0 :: keys')) = Some e1).
  { assert (Hl : last (entry_datetime <$> omap (fun k => d !! k) (k0 :: keys'))
                 = Some k1) by now rewrite Hdates.
    rewrite fmap_last in Hl.
    destruct (last (omap (fun k => d !! k) (k0 :: keys'))) as [x|] eqn:Hx;
      [|discriminate].
    simpl in Hl. injection Hl as Hl.
    assert (Hin : In x (omap (fun k => d !! k) (k0 :: keys'))).
    { apply list_elem_of_In. now apply last_Some_elem_of. }
    apply list_elem_of_In, list_elem_of_omap in Hin as (k & _ & Hkx).
    assert (entry_datetime x = k) by now apply telem_of_lookup_Some in Hkx.
    subst k. rewrite Hl, He1 in Hkx. now injection Hkx as ->. }
  split; [simpl; now rewrite He0|]. split; [assumption|].
  unfold first_item, last_item, dict_getitem.
  rewrite Hk1. cbn [mbind outcome_bind].
  rewrite He0. cbn [mbind outcome_bind].
  rewrite He1. cbn [mbind outcome_bind].
  reflexivity.
Qed.

(** An empty list raises IndexError at [_telem_dates[0]]. *)
Lemma read_json_file_outcome_empty :
  read_json_file (Some []) = Except (Builtin IndexError).
Proof.
  unfold read_json_file, telem_of, sorted_keys. simpl.
  now rewrite map_to_list_empty.
Qed.

(** [read_json_file] has three outcomes: a text that does not decode raises
    ValueError, an empty list raises IndexError at [_telem_dates[0]], and
    any other list gives a result whose path is not empty.  KeyError is
    never raised. *)
Theorem read_json_file_outcome (file : option (list Entry)) :
  match file with
  | None => read_json_file file = Except (Builtin ValueError)
  | Some [] => read_json_file file = Except (Builtin IndexError)
  | Some (_ :: _) =>
      exists fd, read_json_file file = Return fd /\ fd_path fd <> []
  end.
Proof.
  destruct file as [[|x data]|]; [| |reflexivity].
  - exact read_json_file_outcome_empty.
  - destruct (read_json_file_returns (x :: data)) as (e0 & e1 & _ & _ & Hfd);
      [discriminate|].
    eexists. split; [exact Hfd|]. simpl.
    pose proof (kept_entries_nonempty (x :: data) ltac:(discriminate)) as Hne.
    destruct (kept_entries (x :: data)); [contradiction | discriminate].
Qed.

(** The serial reported is that of an entry with the least date, the time
    reported is the greatest date of the data. *)
Theorem read_json_file_first_last data :
  data <> [] ->
  exists fd e_first e_last,
    read_json_file (Some data) = Return fd
    /\ In e_first data /\ In e_last data
    /\ fd_serial fd = entry_serial e_first
    /\ fd_last_time fd = entry_datetime e_last
    /\ forall e, In e data ->
         String.le (entry_datetime e_first) (entry_datetime e)
         /\ String.le (entry_datetime e) (entry_datetime e_last).
Proof.
  intros Hne.
  destruct (read_json_file_returns data Hne) as (e0 & e1 & Hhead & Hlast & Hfd).
  eexists _, e0, e1. split; [exact Hfd|].
  assert (Hin0 : In e0 (kept_entries data)).
  { apply list_elem_of_In. now apply head_Some_elem_of. }
  assert (Hin1 : In e1 (kept_entries data)).
  { apply list_elem_of_In. now apply last_Some_elem_of. }
  split; [now apply kept_entries_In|]. split; [now apply kept_entries_In|].
  split; [reflexivity|]. split; [reflexivity|].
  now apply kept_entries_bounds.
Qed.

Lemma read_json_file_first_last_witness :
  exists fd e_first e_last,
    read_json_file (Some [sample_burst; sample_launch; sample_landing]) = Return fd
    /\ In e_first [sample_burst; sample_launch; sample_landing]
    /\ In e_last [sample_burst; sample_launch; sample_landing]
    /\ fd_serial fd = entry_serial e_first
    /\ fd_last_time fd = entry_datetime e_last
    /\ forall e, In e [sample_burst; sample_launch; sample_landing] ->
         String.le (entry_datetime e_first) (entry_datetime e)
         /\ String.le (entry_datetime e) (entry_datetime e_last).
Proof.
  apply (read_json_file_first_last [sample_burst; sample_launch; sample_landing]).
  discriminate.
Defined.

Lemma telem_of_size data : (size (telem_of data) <= length data)%nat.
Proof.
  induction data as [|x data IH] using rev_ind.
  - unfold telem_of. simpl. rewrite map_size_empty. lia.
  - rewrite telem_of_snoc, length_app, map_size_insert. simpl.
    destruct (telem_of data !! entry_datetime x); simpl; lia.
Qed.

(** The path holds one point per distinct date: it is never longer than
    the data, and each of its points is the position of an entry. *)
Theorem read_json_file_path data :
  data <> [] ->
  exists fd,
    read_json_file (Some data) = Return fd
    /\ (1 <= length (fd_path fd) <= length data)%nat
    /\ length (fd_path fd) = size (list_to_set (entry_datetime <$> data) : gset string)
    /\ Forall (fun p => exists e, In e data /\ p = entry_position e) (fd_path fd).
Proof.
  intros Hne.
  destruct (read_json_file_returns data Hne) as (e0 & e1 & Hhead & _ & Hfd).
  eexists. split; [exact Hfd|]. simpl.
  assert (Hlen : length (entry_position <$> kept_entries data)
                 = size (telem_of data)).
  { rewrite length_fmap, <- (length_fmap entry_datetime), kept_entries_dates.
    apply sorted_keys_length. }
  split; [|split].
  - rewrite Hlen. split; [|apply telem_of_size].
    rewrite <- Hlen, length_fmap.
    destruct (kept_entries data); [discriminate | simpl; lia].
  - rewrite Hlen, <- size_dom. f_equal.
    apply set_eq. intros k. rewrite elem_of_dom, elem_of_list_to_set.
    rewrite list_elem_of_fmap. split.
    + intros [e He]. exists e.
      destruct (telem_of_lookup_Some _ _ _ He) as [Hin Hdate].
      split; [now symmetry | now apply list_elem_of_In].
    + intros (e & -> & Hin). apply telem_of_lookup_In.
      now apply list_elem_of_In.
  - rewrite Forall_fmap. apply Forall_forall. intros e He.
    exists e. split; [|reflexivity].
    apply kept_entries_In. now apply list_elem_of_In.
Qed.

Lemma read_json_file_path_witness :
  exists fd,
    read_json_file (Some [sample_burst; sample_launch; sample_burst]) = Return fd
    /\ (1 <= length (fd_path fd)
        <= length [sample_burst; sample_launch; sample_burst])%nat
    /\ length (fd_path fd) =
       size (list_to_set
               (entry_datetime <$> [sample_burst; sample_launch; sample_burst])
             : gset string)
    /\ Forall (fun p => exists e,
                 In e [sample_burst; sample_launch; sample_burst]
                 /\ p = entry_position e) (fd_path fd).
Proof.
  apply (read_json_file_path [sample_burst; sample_launch; sample_burst]).
  discriminate.
Defined.

(** With dates all different nothing is dropped: the kept entries are the
    data in another order. *)
Lemma kept_entries_Permutation data :
  NoDup (entry_datetime <$> data) -> kept_entries data ≡ₚ data.
Proof.
  intros Hnd. apply NoDup_Permutation.
  - apply (NoDup_fmap_1 entry_datetime).
    rewrite kept_entries_dates. apply sorted_keys_NoDup.
  - now apply (NoDup_fmap_1 entry_datetime).
  - intros e. rewrite !list_elem_of_In. split; [apply kept_entries_In|].
    intros He. apply kept_entries_elem.
    now apply telem_of_lookup_NoDup.
Qed.

(** When no two entries share a date, [read_json_file] sorts: the path is
    the positions of the data put in increasing order of date, the serial
    is that of the first entry in that order and the time that of the last. *)
Theorem read_json_file_sorts data :
  data <> [] -> NoDup (entry_datetime <$> data) ->
  exists fd sorted,
    read_json_file (Some data) = Return fd
    /\ Permutation sorted data
    /\ StronglySorted
         (fun a b => String.le (entry_datetime a) (entry_datetime b)) sorted
    /\ fd_path fd = map entry_position sorted
    /\ option_map entry_serial (head sorted) = Some (fd_serial fd)
    /\ option_map entry_datetime (last sorted) = Some (fd_last_time fd).
Proof.
  intros Hne Hnd.
  destruct (read_json_file_returns data Hne) as (e0 & e1 & Hhead & Hlast & Hfd).
  eexists _, (kept_entries data). split; [exact Hfd|]. simpl.
  split; [|split; [|split; [|split]]].
  - now apply kept_entries_Permutation.
  - apply kept_entries_sorted.
  - reflexivity.
  - now rewrite Hhead.
  - now rewrite Hlast.
Qed.

Lemma read_json_file_sorts_witness :
  exists fd sorted,
    read_json_file (Some [sample_burst; sample_landing; sample_launch]) = Return fd
    /\ Permutation sorted [sample_burst; sample_landing; sample_launch]
    /\ StronglySorted
         (fun a b => String.le (entry_datetime a) (entry_datetime b)) sorted
    /\ fd_path fd = map entry_position sorted
    /\ option_map entry_serial (head sorted) = Some (fd_serial fd)
    /\ option_map entry_datetime (last sorted) = Some (fd_last_time fd).
Proof.
  apply (read_json_file_sorts [sample_burst; sample_landing; sample_launch]).
  - discriminate.
  - simpl. repeat constructor; rewrite ?list_elem_of_In; simpl;
      intros H; repeat (destruct H as [H | H]; [discriminate H|]); exact H.
Defined.

Lemma read_json_file_telem data data' :
  telem_of data = telem_of data' ->
  read_json_file (Some data) = read_json_file (Some data').
Proof.
  intros Heq. unfold read_json_file. cbn [mbind outcome_bind].
  now rewrite Heq.
Qed.

(** De-duplication: of two entries with the same date only the later one
    counts; the earlier one can be deleted from the file without changing
    the result. *)
Theorem read_json_file_dedupes pre e mid e' post :
  entry_datetime e = entry_datetime e' ->
  read_json_file (Some (pre ++ e :: mid ++ e' :: post)) =
  read_json_file (Some (pre ++ mid ++ e' :: post)).
Proof.
  intros Hdate. apply read_json_file_telem.
  replace (pre ++ e :: mid ++ e' :: post)
    with (((pre ++ [e]) ++ mid) ++ e' :: post)
    by (rewrite <- !app_assoc; reflexivity).
  replace (pre ++ mid ++ e' :: post) with ((pre ++ mid) ++ e' :: post)
    by (rewrite <- app_assoc; reflexivity).
  unfold telem_of. rewrite !(foldl_app _ _ (e' :: post)). simpl. f_equal.
  fold (telem_of ((pre ++ [e]) ++ mid)). fold (telem_of (pre ++ mid)).
  induction mid as [|x mid IH] using rev_ind.
  - rewrite !app_nil_r, telem_of_snoc, Hdate. apply insert_insert_eq.
  - rewrite !app_assoc, !telem_of_snoc.
    destruct (decide (entry_datetime e' = entry_datetime x)) as [Heq | Hneq].
    + rewrite <- Heq, !insert_insert_eq. exact IH.
    + rewrite !(insert_insert_ne _ _ _ _ _ Hneq). now rewrite IH.
Qed.

Lemma read_json_file_dedupes_witness :
  read_json_file
    (Some ([sample_launch] ++ sample_landing :: [sample_burst]
           ++ sample_landing :: [])) =
  read_json_file
    (Some ([sample_launch] ++ [sample_burst] ++ sample_landing :: [])).
Proof.
  apply (read_json_file_dedupes [sample_launch] sample_landing [sample_burst]
           sample_landing []).
  reflexivity.
Defined.

(** When no two entries share a date, the order of the entries in the
    file does not matter. *)
Theorem read_json_file_order data data' :
  NoDup (entry_datetime <$> data) -> Permutation data data' ->
  read_json_file (Some data) = read_json_file (Some data').
Proof.
  intros Hnd Hperm. apply read_json_file_telem.
  assert (Hnd' : NoDup (entry_datetime <$> data')).
  { now rewrite <- Hperm. }
  apply map_eq. intros k. apply option_eq. intros e. split; intros He.
  - destruct (telem_of_lookup_Some _ _ _ He) as [Hin <-].
    apply telem_of_lookup_NoDup; [assumption|].
    now apply (Permutation_in _ Hperm).
  - destruct (telem_of_lookup_Some _ _ _ He) as [Hin <-].
    apply telem_of_lookup_NoDup; [assumption|].
    apply (Permutation_in e (Permutation_sym Hperm) Hin).
Qed.

Lemma read_json_file_order_witness :
  read_json_file (Some [sample_launch; sample_burst; sample_landing]) =
  read_json_file (Some [sample_burst; sample_launch; sample_landing]).
Proof.
  apply read_json_file_order.
  - simpl. repeat constructor; rewrite ?list_elem_of_In; simpl;
      intros H; repeat (destruct H as [H | H]; [discriminate H|]); exact H.
  - apply perm_swap.
Defined.

(** ** Building the KML tree *)

Section KmlFacts.

Variable format_6f : R -> string.
Variable str : R -> string.

Local Abbreviation folder_of := (_log_file_to_kml_folder format_6f str).
Local Abbreviation folders_of := (kml_folders format_6f str).

(** The folder of a file with an entry in it, written out: the landing
    placemark stands at the last kept entry. *)
Lemma log_file_folder_returns data absolute extrude last_only :
  data <> [] ->
  exists fd e_first e_last,
    head (kept_entries data) = Some e_first
    /\ last (kept_entries data) = Some e_last
    /\ read_json_file (Some data) = Return fd
    /\ fd_serial fd = entry_serial e_first
    /\ fd_path fd = entry_position <$> kept_entries data
    /\ folder_of (Some data) absolute extrude last_only =
       Return (mkElement "Folder" [] None
         (text_element "name" (fd_serial fd)
          :: coordinates_to_kml_placemark format_6f str
               (entry_lat e_last) (entry_lon e_last) (entry_alt e_last)
               (fd_serial fd) (entry_datetime e_last) absolute default_icon 1.0
          :: (if last_only then []
              else [path_to_kml_placemark format_6f str (fd_path fd) "Track"
                      "ff03bafc" "8003bafc" 2.0 absolute extrude]))).
Proof.
  intros Hne.
  destruct (read_json_file_returns data Hne) as (e0 & e1 & Hhead & Hlast & Hfd).
  eexists _, e0, e1. split; [exact Hhead|]. split; [exact Hlast|].
  split; [exact Hfd|]. split; [reflexivity|]. split; [reflexivity|].
  unfold _log_file_to_kml_folder. rewrite Hfd. cbn [mbind outcome_bind].
  unfold last_item. cbn [fd_path fd_serial fd_last_time].
  rewrite fmap_last, Hlast. reflexivity.
Qed.

(** A file that does not decode, or decodes to an empty list, has no
    folder. *)
Lemma log_file_folder_raises file absolute extrude last_only :
  file = None \/ file = Some [] ->
  exists e, folder_of file absolute extrude last_only = Except e.
Proof.
  intros [-> | ->]; eexists; unfold _log_file_to_kml_folder.
  - reflexivity.
  - pose proof (read_json_file_outcome_empty) as ->. reflexivity.
Qed.

Lemma kml_folders_app l1 l2 absolute extrude last_only :
  folders_of (l1 ++ l2) absolute extrude last_only =
  folders_of l1 absolute extrude last_only
  ++ folders_of l2 absolute extrude last_only.
Proof.
  induction l1 as [|file l1 IH]; [reflexivity|]. cbn [app kml_folders].
  destruct (folder_of file absolute extrude last_only); [|exact IH].
  cbn [app]. now rewrite IH.
Qed.

(** The landing placemark of a folder: it stands at the position of an
    entry with the greatest date of the file and is described by that very
    date; folder and placemark are named by the serial [read_json_file]
    reports, and the track follows unless [last_only] is set. *)
Theorem log_file_folder_landing data absolute extrude last_only :
  data <> [] ->
  exists fd e_last,
    read_json_file (Some data) = Return fd
    /\ In e_last data
    /\ (forall e, In e data ->
          String.le (entry_datetime e) (entry_datetime e_last))
    /\ _log_file_to_kml_folder format_6f str (Some data)
         absolute extrude last_only =
       Return (mkElement "Folder" [] None
         (text_element "name" (fd_serial fd)
          :: coordinates_to_kml_placemark format_6f str
               (entry_lat e_last) (entry_lon e_last) (entry_alt e_last)
               (fd_serial fd) (entry_datetime e_last) absolute default_icon 1.0
          :: (if last_only then []
              else [path_to_kml_placemark format_6f str (fd_path fd) "Track"
                      "ff03bafc" "8003bafc" 2.0 absolute extrude]))).
Proof.
  intros Hne.
  destruct (log_file_folder_returns data absolute extrude last_only Hne)
    as (fd & e0 & e1 & Hhead & Hlast & Hfd & _ & _ & Hfolder).
  exists fd, e1. split; [exact Hfd|]. split; [|split; [|exact Hfolder]].
  - apply kept_entries_In, list_elem_of_In. now apply last_Some_elem_of.
  - intros e He. now apply (kept_entries_bounds data e0 e1 Hhead Hlast e He).
Qed.

(** A file that does not decode, or decodes to an empty list, leaves no
    trace in the tree: the result is that of the list without it.  So it
    is for the run of [step4.py]. *)
Theorem log_files_to_kml_skips l1 file l2 absolute extrude last_only :
  file = None \/ file = Some [] ->
  log_files_to_kml format_6f str (l1 ++ file :: l2) absolute extrude last_only
  = log_files_to_kml format_6f str (l1 ++ l2) absolute extrude last_only
  /\ step4_main format_6f str (l1 ++ file :: l2)
     = step4_main format_6f str (l1 ++ l2).
Proof.
  intros Hfile.
  assert (Hskip : forall a e l,
    folders_of (l1 ++ file :: l2) a e l = folders_of (l1 ++ l2) a e l).
  { intros a e l. rewrite !kml_folders_app. f_equal. cbn [kml_folders].
    destruct (log_file_folder_raises file a e l Hfile) as [err ->].
    reflexivity. }
  unfold step4_main, log_files_to_kml. now rewrite !Hskip.
Qed.

(** The tree is a [kml] root in the KML 2.2 name space with one [Document]
    in it, and the Document holds exactly the folders of the files that
    decode to a list with an entry in it, in the order of the file list. *)
Theorem log_files_to_kml_folders file_list absolute extrude last_only :
  exists folders,
    log_files_to_kml format_6f str file_list absolute extrude last_only =
      mkElement "kml" [("xmlns", "http://www.opengis.net/kml/2.2")] None
        [mkElement "Document" [] None folders]
    /\ Forall2
         (fun data folder =>
            _log_file_to_kml_folder format_6f str (Some data)
              absolute extrude last_only = Return folder
            /\ tag_of folder = "Folder")
         (convertible_files file_list) folders.
Proof.
  exists (folders_of file_list absolute extrude last_only).
  split; [reflexivity|].
  induction file_list as [|file file_list IH]; [constructor|].
  unfold convertible_files. cbn [omap list_omap kml_folders].
  destruct file as [[|x data]|].
  - destruct (log_file_folder_raises (Some []) absolute extrude last_only)
      as [err ->]; [now right | exact IH].
  - destruct (log_file_folder_returns (x :: data) absolute extrude last_only)
      as (fd & e0 & e1 & _ & _ & _ & _ & _ & Hfolder); [discriminate|].
    rewrite Hfolder. constructor; [|exact IH].
    split; [exact Hfolder | reflexivity].
  - exact IH.
Qed.

End KmlFacts.

Lemma log_file_folder_landing_witness :
  exists fd e_last,
    read_json_file (Some [sample_landing; sample_launch]) = Return fd
    /\ In e_last [sample_landing; sample_launch]
    /\ (forall e, In e [sample_landing; sample_launch] ->
          String.le (entry_datetime e) (entry_datetime e_last))
    /\ _log_file_to_kml_folder sample_format sample_format
         (Some [sample_landing; sample_launch]) true true false =
       Return (mkElement "Folder" [] None
         (text_element "name" (fd_serial fd)
          :: coordinates_to_kml_placemark sample_format sample_format
               (entry_lat e_last) (entry_lon e_last) (entry_alt e_last)
               (fd_serial fd) (entry_datetime e_last) true default_icon 1.0
          :: (if false then []
              else [path_to_kml_placemark sample_format sample_format
                      (fd_path fd) "Track" "ff03bafc" "8003bafc" 2.0
                      true true]))).
Proof.
  apply (log_file_folder_landing sample_format sample_format
           [sample_landing; sample_launch] true true false).
  discriminate.
Defined.

Lemma log_files_to_kml_skips_witness :
  log_files_to_kml sample_format sample_format
    ([Some [sample_launch]] ++ Some [] :: [Some [sample_landing]])
    true true false
  = log_files_to_kml sample_format sample_format
      ([Some [sample_launch]] ++ [Some [sample_landing]]) true true false
  /\ step4_main sample_format sample_format
       ([Some [sample_launch]] ++ Some [] :: [Some [sample_landing]])
     = step4_main sample_format sample_format
         ([Some [sample_launch]] ++ [Some [sample_landing]]).
Proof.
  apply (log_files_to_kml_skips sample_format sample_format
           [Some [sample_launch]] (Some []) [Some [sample_landing]]
           true true false).
  now right.
Defined.
